(** * WebSentry AI: the report pipeline, embedded and verified

    A shallow embedding of the report pipeline of the repository
    (fetch -> rule evaluation -> summarisation -> report assembly):

    - [src/websentry/cli.py]          : module [Cli]
    - [src/websentry/llm/summary.py]  : module [Summary]
    - [src/websentry/webapp.py]       : module [Webapp]

    Python strings are modelled by [string]; a character is a code point
    below 256.  A Python [dict] is an insertion-ordered association list
    with pairwise distinct keys.  Values that end up in a report (strings,
    integers, lists, nested dicts) are the type [value]. *)

From Stdlib Require Import String Ascii List Bool Arith Lia ZArith.
From Stdlib Require Import DecimalString Sorted Permutation.
From Stdlib Require QArith_base.
Import ListNotations.
Open Scope string_scope.

(* ------------------------------------------------------------------ *)
(** ** Python strings *)

Module PyStr.

(** The line feed, written [\n] in the source. *)
Definition nl : string := String (ascii_of_nat 10) "".

(** [str.isspace] on one code point: TAB..CR, FS..US, space, NEL, NBSP. *)
Definition isspace (c : ascii) : bool :=
  let n := nat_of_ascii c in
  (((9 <=? n) && (n <=? 13)) || ((28 <=? n) && (n <=? 32))
   || (n =? 133) || (n =? 160))%nat.

(** [str.lower] on one code point: A..Z, and the upper-case letters
    U+00C0..U+00DE (U+00D7, the multiplication sign, is not a letter). *)
Definition lower_char (c : ascii) : ascii :=
  let n := nat_of_ascii c in
  if (((65 <=? n) && (n <=? 90))
      || ((192 <=? n) && (n <=? 222) && negb (n =? 215)))%nat
  then ascii_of_nat (n + 32) else c.

Fixpoint lower (s : string) : string :=
  match s with
  | EmptyString => EmptyString
  | String c r => String (lower_char c) (lower r)
  end.

Fixpoint lstrip (s : string) : string :=
  match s with
  | EmptyString => EmptyString
  | String c r => if isspace c then lstrip r else s
  end.

Fixpoint rstrip (s : string) : string :=
  match s with
  | EmptyString => EmptyString
  | String c r =>
      match rstrip r with
      | EmptyString => if isspace c then EmptyString else String c EmptyString
      | r' => String c r'
      end
  end.

(** [s.strip()] *)
Definition strip (s : string) : string := rstrip (lstrip s).

(** Truth value of a string: [bool(s)]. *)
Definition truthy (s : string) : bool := negb (s =? "").

(** [sub in s] *)
Fixpoint contains (sub s : string) : bool :=
  prefix sub s ||
  match s with
  | EmptyString => false
  | String _ r => contains sub r
  end.

(** [s.find(sub)]: the least index at which [sub] occurs, or -1. *)
Fixpoint find_from (i : nat) (sub s : string) : Z :=
  if prefix sub s then Z.of_nat i
  else match s with
       | EmptyString => (-1)%Z
       | String _ r => find_from (S i) sub r
       end.

Definition find (s sub : string) : Z := find_from 0 sub s.

(** [s[a:b]] for indices [0 <= a] and [0 <= b]. *)
Definition slice (s : string) (a b : nat) : string := substring a (b - a) s.

(** [str(n)] of a non-negative integer, as an f-string prints it. *)
Definition str_of_nat (n : nat) : string :=
  NilEmpty.string_of_uint (Nat.to_uint n).

(** [sorted(l)] on strings.  The order on strings is total and
    antisymmetric, so the sorted list is the same whatever stable
    algorithm produces it; an insertion sort stands for it. *)
Fixpoint insert_sorted (k : string) (l : list string) : list string :=
  match l with
  | [] => [k]
  | k' :: r => if (k <=? k')%string then k :: l else k' :: insert_sorted k r
  end.

Fixpoint sorted (l : list string) : list string :=
  match l with
  | [] => []
  | k :: r => insert_sorted k (sorted r)
  end.

End PyStr.

(* ------------------------------------------------------------------ *)
(** ** Python dicts: insertion-ordered association lists *)

Module PyDict.

Definition dict (V : Type) : Type := list (string * V).

Section Ops.
Context {V : Type}.

(** [d.get(k)]: [None] when the key is absent. *)
Fixpoint get (d : dict V) (k : string) : option V :=
  match d with
  | [] => None
  | (k', v) :: r => if k' =? k then Some v else get r k
  end.

(** [k in d] *)
Definition mem (k : string) (d : dict V) : bool :=
  match get d k with Some _ => true | None => false end.

(** [d[k] = v]: a present key keeps its position, a new key goes last. *)
Fixpoint set (d : dict V) (k : string) (v : V) : dict V :=
  match d with
  | [] => [(k, v)]
  | (k', v') :: r => if k' =? k then (k', v) :: r else (k', v') :: set r k v
  end.

Definition keys (d : dict V) : list string := map fst d.

Definition items (d : dict V) : list (string * V) := d.

(** [dict(pairs)] *)
Definition of_items (l : list (string * V)) : dict V :=
  fold_left (fun d kv => set d (fst kv) (snd kv)) l [].

(** The invariant of a Python dict: no key occurs twice. *)
Definition wf (d : dict V) : Prop := NoDup (keys d).

End Ops.

End PyDict.

Import PyStr PyDict.

(* ------------------------------------------------------------------ *)
(** ** Python values found in findings and reports *)

#[warnings="-register-all"]
Inductive value : Type :=
| VNone
| VBool (b : bool)
| VInt (n : Z)
| VStr (s : string)
| VList (l : list value)
| VDict (d : list (string * value)).

(** [bool(v)] *)
Definition value_truthy (v : value) : bool :=
  match v with
  | VNone => false
  | VBool b => b
  | VInt n => negb (n =? 0)%Z
  | VStr s => truthy s
  | VList l => match l with [] => false | _ => true end
  | VDict d => match d with [] => false | _ => true end
  end.

(** [v == s] for a string [s]: only an equal string compares equal. *)
Definition value_eq_str (v : option value) (s : string) : bool :=
  match v with
  | Some (VStr t) => t =? s
  | _ => false
  end.

(** A finding is a dict; the rule engine fills it with four strings. *)
Definition Finding : Type := dict value.

(** Follow a path of keys into nested dicts. *)
Fixpoint lookup_path (path : list string) (v : value) : option value :=
  match path with
  | [] => Some v
  | k :: rest =>
      match v with
      | VDict d => match get d k with
                   | Some v' => lookup_path rest v'
                   | None => None
                   end
      | _ => None
      end
  end.

(** [sum(1 for f in findings if f.get("severity") == sev)] *)
Definition count_severity (sev : string) (findings : list Finding) : nat :=
  length (filter (fun f => value_eq_str (get f "severity") sev) findings).

(* ------------------------------------------------------------------ *)
(** ** cli.py *)

Module Cli.

(** What the f-string prints for [headers.get('server')]. *)
Definition format_opt (o : option string) : string :=
  match o with Some s => s | None => "None" end.

Definition csp_finding : Finding :=
  [ ("title", VStr "Missing Content-Security-Policy header");
    ("severity", VStr "Medium");
    ("evidence", VStr "No Content-Security-Policy header present in response");
    ("mitigation", VStr "Add a strict Content-Security-Policy header to reduce XSS risk") ].

Definition xfo_finding : Finding :=
  [ ("title", VStr "Missing X-Frame-Options header");
    ("severity", VStr "Low");
    ("evidence", VStr "No X-Frame-Options header present in response");
    ("mitigation", VStr "Add X-Frame-Options or frame-ancestors to prevent clickjacking") ].

Definition server_finding (headers : dict string) : Finding :=
  [ ("title", VStr "Server version disclosure");
    ("severity", VStr "Low");
    ("evidence", VStr ("Server header present: " ++ format_opt (get headers "server")));
    ("mitigation", VStr "Disable or obfuscate server version headers") ].

(** [run_rule_based_checks(headers)] *)
Definition run_rule_based_checks (headers : dict string) : list Finding :=
  let findings := [] in
  let findings :=
    if negb (mem "content-security-policy" headers)
    then (findings ++ [csp_finding])%list else findings in
  let findings :=
    if negb (mem "x-frame-options" headers)
    then (findings ++ [xfo_finding])%list else findings in
  let findings :=
    if mem "server" headers
    then (findings ++ [server_finding headers])%list else findings in
  findings.

(** [{k: headers[k] for k in ks}]; a subscript on an absent key raises
    [KeyError], rendered by [None]. *)
Fixpoint comprehension (headers : dict string) (ks : list string)
         (acc : dict value) : option (dict value) :=
  match ks with
  | [] => Some acc
  | k :: rest =>
      match get headers k with
      | Some v => comprehension headers rest (set acc k (VStr v))
      | None => None
      end
  end.

(** [{k: headers[k] for k in sorted(headers.keys())[:25]}] *)
Definition headers_sample (headers : dict string) : option (dict value) :=
  comprehension headers (firstn 25 (sorted (keys headers))) [].

(** The report built in [main] from the fetched title and headers and
    the findings; [utcnow] is [datetime.utcnow().isoformat()]. *)
Definition assemble (url title : string) (headers : dict string)
           (findings : list Finding) (utcnow : string) : option value :=
  let severity_counts :=
    VDict [ ("High", VInt (Z.of_nat (count_severity "High" findings)));
            ("Medium", VInt (Z.of_nat (count_severity "Medium" findings)));
            ("Low", VInt (Z.of_nat (count_severity "Low" findings))) ] in
  match headers_sample headers with
  | None => None
  | Some sample =>
      Some (VDict
        [ ("url", VStr url);
          ("title", VStr title);
          ("headers_sample", VDict sample);
          ("findings", VList (map VDict findings));
          ("meta", VDict [ ("tool", VStr "WebSentry AI");
                           ("version", VStr "0.1.0");
                           ("scanned_at", VStr (utcnow ++ "Z")) ]);
          ("summary", VDict [ ("total_findings", VInt (Z.of_nat (length findings)));
                              ("severity_breakdown", severity_counts) ]) ])
  end.

(** The browser navigation of [fetch_page_title_and_headers]: it raises
    ([None]) or yields the title and, when there is a response, its
    headers.  The browser library hands over header names in lower case. *)
Definition Browser : Type := string -> option (string * option (dict string)).

(** [fetch_page_title_and_headers(url)] *)
Definition fetch_page_title_and_headers (goto : Browser) (url : string)
  : option (string * dict string) :=
  match goto url with
  | None => None
  | Some (title, response) =>
      Some (title, match response with Some h => h | None => [] end)
  end.

(** The report of [main(url)]; [None] when the scan raised. *)
Definition main_report (goto : Browser) (utcnow : string) (url : string)
  : option value :=
  match fetch_page_title_and_headers goto url with
  | None => None
  | Some (title, headers) =>
      let findings := run_rule_based_checks headers in
      assemble url title headers findings utcnow
  end.

End Cli.

(* ------------------------------------------------------------------ *)
(** ** llm/summary.py *)

Module Summary.

(** [(posture, priority)] as chosen by the [if high > 0 / elif med > 0 /
    else] of [rule_based_executive_summary]. *)
Definition posture_priority (high med : nat) : string * string :=
  if (0 <? high)%nat then
    ("elevated risk",
     "address High severity issues immediately, followed by Medium and Low findings")
  else if (0 <? med)%nat then
    ("moderate risk",
     "remediate Medium severity issues first, then address Low severity hardening gaps")
  else
    ("low-to-moderate risk",
     "resolve Low severity configuration and hardening issues").

(** The text returned when [findings] is empty. *)
Definition no_issues_text (url title : string) : string :=
  "A lightweight security review of " ++ url ++ " (" ++ title ++ ") did not identify "
  ++ "obvious baseline security misconfigurations during limited automated checks. "
  ++ "This does not guarantee the application is secure, and deeper authenticated "
  ++ "testing may still be required.".

(** The sentence of the summary that carries the four numbers. *)
Definition counts_text (total high med low : nat) : string :=
  str_of_nat total ++ " issue(s): "
  ++ str_of_nat high ++ " High, " ++ str_of_nat med ++ " Medium, and "
  ++ str_of_nat low ++ " Low".

(** [rule_based_executive_summary(url, title, findings)] *)
Definition rule_based_executive_summary
           (url title : string) (findings : list Finding) : string :=
  let high := count_severity "High" findings in
  let med := count_severity "Medium" findings in
  let low := count_severity "Low" findings in
  match findings with
  | [] => no_issues_text url title
  | _ :: _ =>
      let '(posture, priority) := posture_priority high med in
      "A lightweight security review of " ++ url ++ " (" ++ title ++ ") identified "
      ++ counts_text (length findings) high med low
      ++ ". Overall, the application presents a " ++ posture ++ " "
      ++ "security posture driven primarily by configuration and security header gaps. "
      ++ "It is recommended to " ++ priority ++ " and re-test to validate remediation."
  end.

Section Summarizer.

(** Python's floats and the built-ins [int(s)] and [float(s)], which
    raise [ValueError] ([None]) on a string they cannot read. *)
Variable Float : Type.
Variable py_int : string -> option Z.
Variable py_float : string -> option Float.

(** The keyword arguments of [client.chat.completions.create]. *)
Record Request : Type := mkRequest {
  model : string;
  messages : list (string * string);   (* role, content *)
  max_tokens : Z;
  temperature : Float
}.

(** A completion: the [message.content] of each of its [choices],
    which may be [None]. *)
Definition Response : Type := list (option string).

(** The external summarisation capability: one call either raises
    ([None]: timeout, authentication, availability) or answers. *)
Definition Client : Type := Request -> option Response.

(** What the summariser reads from its surroundings: the process
    environment, and the client that [from openai import OpenAI;
    OpenAI()] yields ([None] when either raises). *)
Record World : Type := mkWorld {
  environ : string -> option string;
  openai : option Client
}.

(** [os.getenv(name, default)] *)
Definition getenv (w : World) (name default : string) : string :=
  match environ w name with Some v => v | None => default end.

(** Computations that may raise and that record every request sent to
    the external capability. *)
Inductive res (A : Type) : Type :=
| Val (a : A)
| Exn.
Arguments Val {A} a.
Arguments Exn {A}.

Definition M (A : Type) : Type := list Request -> res A * list Request.

Definition ret {A} (a : A) : M A := fun log => (Val a, log).

Definition raise {A} : M A := fun log => (Exn, log).

Definition bind {A B} (m : M A) (k : A -> M B) : M B :=
  fun log =>
    match m log with
    | (Val a, log') => k a log'
    | (Exn, log') => (Exn, log')
    end.

(** [try: m / except Exception: h] *)
Definition try_except {A} (m : M A) (h : M A) : M A :=
  fun log =>
    match m log with
    | (Val a, log') => (Val a, log')
    | (Exn, log') => h log'
    end.

Definition lift {A} (o : option A) : M A :=
  match o with Some a => ret a | None => raise end.

(** One call of the external capability; the request is recorded
    whether the call answers or raises. *)
Definition create (client : Client) (r : Request) : M Response :=
  fun log =>
    ((match client r with Some resp => Val resp | None => Exn end),
     (log ++ [r])%list).

Notation "x <- m ;; k" := (bind m (fun x => k))
  (at level 61, m at next level, right associativity).

(** [llm_enabled()] *)
Definition llm_enabled (w : World) : bool :=
  (lower (getenv w "WEBSENTRY_LLM_ENABLED" "false") =? "true")
  && match environ w "OPENAI_API_KEY" with
     | Some key => truthy key
     | None => false
     end.

(** [", ".join(l)]: [TypeError] ([None]) on an item that is no string. *)
Fixpoint join_values (sep : string) (l : list value) : option string :=
  match l with
  | [] => Some ""
  | VStr s :: [] => Some s
  | VStr s :: r =>
      match join_values sep r with
      | Some t => Some (s ++ sep ++ t)
      | None => None
      end
  | _ :: _ => None
  end.

(** [[f.get("title", "") for f in findings if f.get("title")][:8]] *)
Definition top_titles (findings : list Finding) : list value :=
  firstn 8
    (map (fun f => match get f "title" with Some v => v | None => VStr "" end)
       (filter (fun f => match get f "title" with
                         | Some v => value_truthy v
                         | None => false
                         end) findings)).

(** The f-string [user_prompt], before [.strip()]. *)
Definition user_prompt (url title : string) (high med low : nat)
           (issues : string) : string :=
  nl ++ "Write ONE concise executive summary paragraph for a web application security review." ++ nl
  ++ nl
  ++ "Target URL: " ++ url ++ nl
  ++ "Page title: " ++ title ++ nl
  ++ nl
  ++ "Findings count:" ++ nl
  ++ "High=" ++ str_of_nat high ++ ", Medium=" ++ str_of_nat med
  ++ ", Low=" ++ str_of_nat low ++ nl
  ++ nl
  ++ "Key issues:" ++ nl
  ++ issues ++ nl
  ++ nl
  ++ "Requirements:" ++ nl
  ++ "- One paragraph only" ++ nl
  ++ "- Non-technical, executive-friendly language" ++ nl
  ++ "- State overall risk level" ++ nl
  ++ "- Clearly state what should be prioritized first" ++ nl
  ++ "- No bullet points" ++ nl.

(** The [try] block of [generate_executive_summary] up to and including
    [resp.choices[0].message.content]: the import, the client, the prompt,
    the one call of the capability and the reading of its answer. *)
Definition llm_content (w : World) (url title : string)
           (findings : list Finding) : M (option string) :=
  client <- lift (openai w) ;;
  let high := count_severity "High" findings in
  let med := count_severity "Medium" findings in
  let low := count_severity "Low" findings in
  let titles := top_titles findings in
  issues <- match titles with
            | [] => ret "No issues detected"
            | _ :: _ => lift (join_values ", " titles)
            end ;;
  let prompt := user_prompt url title high med low issues in
  let model := getenv w "WEBSENTRY_LLM_MODEL" "gpt-4o-mini" in
  let msgs := [ ("system", "You write concise executive security summaries.");
                ("user", strip prompt) ] in
  max_tokens <- lift (py_int (getenv w "WEBSENTRY_LLM_MAX_TOKENS" "140")) ;;
  temperature <- lift (py_float (getenv w "WEBSENTRY_LLM_TEMPERATURE" "0.3")) ;;
  resp <- create client (mkRequest model msgs max_tokens temperature) ;;
  lift (nth_error resp 0).

(** [text = (content or "").strip()] *)
Definition text_of (content : option string) : string :=
  strip (match content with Some s => s | None => "" end).

(** The whole [try] block: the content, then
    [return text if text else fallback]. *)
Definition llm_summary (w : World) (url title : string)
           (findings : list Finding) (fallback : string) : M string :=
  content <- llm_content w url title findings ;;
  let text := text_of content in
  ret (if truthy text then text else fallback).

(** [generate_executive_summary(url, title, findings)] *)
Definition generate_executive_summary (w : World) (url title : string)
           (findings : list Finding) : M string :=
  let fallback := rule_based_executive_summary url title findings in
  if negb (llm_enabled w) then ret fallback
  else try_except (llm_summary w url title findings fallback) (ret fallback).

End Summarizer.

Arguments Val {A} a.
Arguments Exn {A}.
Arguments mkRequest {Float}.
Arguments mkWorld {Float}.
Arguments environ {Float}.
Arguments openai {Float}.
Arguments getenv {Float}.
Arguments llm_enabled {Float}.
Arguments ret {Float A}.
Arguments raise {Float A}.
Arguments bind {Float A B}.
Arguments try_except {Float A}.
Arguments lift {Float A}.
Arguments create {Float}.
Arguments llm_content {Float}.
Arguments llm_summary {Float}.
Arguments generate_executive_summary {Float}.

End Summary.

(* ------------------------------------------------------------------ *)
(** ** webapp.py *)

Module Webapp.

Import Summary.

(** What [requests.get] hands back: [resp_headers] is [dict(r.headers)],
    whose keys are the header names with the letter case the server
    sent; [resp_text] is [r.text], [None] when reading it raises. *)
Record HttpResponse : Type := mkHttpResponse {
  resp_headers : dict string;
  resp_text : option string
}.

(** [requests.get(url, timeout=20, ...)]: [None] when it raises. *)
Definition Http : Type := string -> option HttpResponse.

(** The naive title parse of [fetch_page_title_and_headers]. *)
Definition parse_title (text : string) : string :=
  let lo := lower text in
  let t1 := find lo "<title>" in
  let t2 := find lo "</title>" in
  if (negb (t1 =? -1) && negb (t2 =? -1) && (t1 <? t2))%Z
  then strip (slice text (Z.to_nat (t1 + 7)) (Z.to_nat t2))
  else "Unknown".

(** [fetch_page_title_and_headers(url)] *)
Definition fetch_page_title_and_headers (http : Http) (url : string)
  : option (string * dict string) :=
  match http url with
  | None => None
  | Some r =>
      let headers := resp_headers r in
      let title := match resp_text r with
                   | Some text => parse_title text
                   | None => "Unknown"
                   end in
      Some (title, headers)
  end.

Section Assembler.

Variable Float : Type.
Variable py_int : string -> option Z.
Variable py_float : string -> option Float.

Notation "x <- m ;; k" := (bind m (fun x => k))
  (at level 61, m at next level, right associativity).

(** [_llm_mode_string()] *)
Definition _llm_mode_string (w : World Float) : string :=
  if llm_enabled w then "AI-assisted (LLM enabled)"
  else "Rule-based (LLM disabled)".

(** [dict(list(headers.items())[:20])] *)
Definition headers_sample (headers : dict string) : dict value :=
  of_items (firstn 20 (items (map (fun kv => (fst kv, VStr (snd kv))) headers))).

(** The dict [report] that [_build_report] builds from the fetched title
    and headers, the findings and the summary; [utc_iso] is the value of
    [_utc_iso()]. *)
Definition assemble (w : World Float) (utc_iso url title : string)
           (headers : dict string) (findings : list Finding)
           (exec_summary : string) : value :=
  VDict
    [ ("url", VStr url);
      ("title", VStr title);
      ("executive_summary", VStr exec_summary);
      ("headers_sample", VDict (headers_sample headers));
      ("findings", VList (map VDict findings));
      ("meta", VDict [ ("tool", VStr "WebSentry AI");
                       ("version", VStr (getenv w "WEBSENTRY_VERSION" "0.1.0"));
                       ("scanned_at", VStr utc_iso);
                       ("mode", VStr (_llm_mode_string w));
                       ("scope", VStr "Unauthenticated, read-only checks (MVP)") ]) ].

(** [_build_report(url)] *)
Definition _build_report (w : World Float) (http : Http) (utc_iso : string)
           (url : string) : M Float value :=
  fetched <- lift (fetch_page_title_and_headers http url) ;;
  let '(title, headers) := fetched in
  let findings := Cli.run_rule_based_checks headers in
  exec_summary <- generate_executive_summary py_int py_float w url title findings ;;
  ret (assemble w utc_iso url title headers findings exec_summary).

End Assembler.

Arguments _llm_mode_string {Float}.
Arguments assemble {Float}.
Arguments _build_report {Float}.

End Webapp.

(* ------------------------------------------------------------------ *)
(** ** Vocabulary of the specification *)

Import Summary.

(** A header named [name] is present, whatever the letter case of the
    key ([name] itself is given in lower case). *)
Definition has_header (name : string) (headers : dict string) : bool :=
  existsb (fun k => lower k =? name) (keys headers).

(** Every key is already in lower case. *)
Definition lowercase_keys (headers : dict string) : Prop :=
  Forall (fun k => lower k = k) (keys headers).

(** The findings of [out] with the given title and severity. *)
Definition matching (title severity : string) (out : list Finding) : list Finding :=
  filter (fun f => value_eq_str (get f "title") title
                   && value_eq_str (get f "severity") severity) out.

(** The evidence of [f] is a string in which [v] occurs. *)
Definition evidence_includes (v : string) (f : Finding) : bool :=
  match get f "evidence" with
  | Some (VStr e) => contains v e
  | _ => false
  end.

(** The rule a finding comes from, read off its title. *)
Definition rule_index (f : Finding) : option nat :=
  match get f "title" with
  | Some (VStr t) =>
      if t =? "Missing Content-Security-Policy header" then Some 0
      else if t =? "Missing X-Frame-Options header" then Some 1
      else if t =? "Server version disclosure" then Some 2
      else None
  | _ => None
  end.

(** Neighbouring keys never decrease. *)
Fixpoint is_sorted (l : list string) : bool :=
  match l with
  | [] => true
  | k :: r =>
      match r with
      | [] => true
      | k' :: _ => (k <=? k')%string && is_sorted r
      end
  end.

(** The keys of a dict-valued field of a report. *)
Definition field_keys (path : list string) (report : value) : option (list string) :=
  match lookup_path path report with
  | Some (VDict d) => Some (keys d)
  | _ => None
  end.

(** Some finding of the list has the given severity. *)
Definition has_severity (sev : string) (findings : list Finding) : bool :=
  existsb (fun f => value_eq_str (get f "severity") sev) findings.

(** [sends_at_most n m]: running [m] adds at most [n] requests to the
    record of the calls, and removes none. *)
Definition sends_at_most {Float A} (n : nat) (m : M Float A) : Prop :=
  forall log r log', m log = (r, log') ->
    exists reqs, log' = (log ++ reqs)%list /\ length reqs <= n.

(* ------------------------------------------------------------------ *)
(** ** Concrete surroundings used by the examples *)

Module Demo.

(** Floats are rationals here; [int] and [float] read the two defaults. *)
Definition Float : Type := QArith_base.Q.

Definition py_int (s : string) : option Z :=
  if s =? "140" then Some 140%Z else None.

Definition py_float (s : string) : option Float :=
  if s =? "0.3" then Some (QArith_base.Qmake 3 10) else None.

Definition env_enabled (name : string) : option string :=
  if name =? "WEBSENTRY_LLM_ENABLED" then Some "true"
  else if name =? "OPENAI_API_KEY" then Some "sk-test"
  else None.

Definition env_disabled (name : string) : option string := None.

(** The capability is enabled and answers every request with one choice. *)
Definition world_answering (content : option string) : World Float :=
  mkWorld env_enabled (Some (fun _ => Some [content])).

(** The capability is enabled and every call to it raises. *)
Definition world_timeout : World Float :=
  mkWorld env_enabled (Some (fun _ => None)).

(** The capability is disabled. *)
Definition world_disabled : World Float :=
  mkWorld env_disabled None.

(** A server that names its headers the usual way, in mixed case. *)
Definition mixed_case_headers : dict string :=
  [ ("Content-Security-Policy", "default-src 'self'");
    ("X-Frame-Options", "DENY");
    ("Server", "nginx/1.18") ].

Definition page : string := "<html><head><title>Demo</title></head></html>".

Definition http_mixed_case : Webapp.Http :=
  fun _ => Some (Webapp.mkHttpResponse mixed_case_headers (Some page)).

(** A server whose headers are not in key order. *)
Definition unsorted_headers : dict string :=
  [ ("server", "nginx/1.18"); ("date", "Mon, 01 Jan 2024 00:00:00 GMT") ].

Definition http_unsorted : Webapp.Http :=
  fun _ => Some (Webapp.mkHttpResponse unsorted_headers (Some page)).

(** The browser of the command line, which hands over lower-case names. *)
Definition browser : Cli.Browser :=
  fun _ => Some ("Demo", Some unsorted_headers).

Definition url : string := "https://example.com".

Definition stamp : string := "2024-01-01T00:00:00".

End Demo.

(* ------------------------------------------------------------------ *)
(** ** cli.py: the console summary of [main] *)

Module Console.

Section Echo.

(** Python's [str(v)], which an f-string applies to a value; on a string
    it is the string itself. *)
Variable py_str : value -> string.

(** The messages that the loop [for i, f in enumerate(findings, start=i)]
    passes to [typer.echo]; [None] when a subscript [f['...']] raises
    [KeyError]. *)
Fixpoint finding_lines (i : nat) (findings : list Finding) : option (list string) :=
  match findings with
  | [] => Some []
  | f :: rest =>
      match get f "title", get f "severity", get f "evidence", get f "mitigation" with
      | Some t, Some s, Some e, Some m =>
          match finding_lines (S i) rest with
          | Some ls =>
              Some (("[" ++ str_of_nat i ++ "] " ++ py_str t)
                    :: ("    Severity  : " ++ py_str s)
                    :: ("    Evidence  : " ++ py_str e)
                    :: ("    Mitigation: " ++ py_str m ++ nl)
                    :: ls)
          | None => None
          end
      | _, _, _, _ => None
      end
  end.

(** The console summary at the end of [main]. *)
Definition console_summary (findings : list Finding) : option (list string) :=
  match findings with
  | [] => Some ["No obvious issues detected."]
  | _ :: _ => finding_lines 1 findings
  end.

End Echo.

End Console.

(* ------------------------------------------------------------------ *)
(** ** webapp.py: the time stamp and the JSON endpoint *)

Module WebappApi.

Import Summary.

(** [s.replace(old, new)] for a non-empty [old]: occurrences are replaced
    from left to right and do not overlap; [skip] counts the characters of
    the occurrence just replaced that are still to be dropped. *)
Fixpoint replace_from (skip : nat) (old new s : string) : string :=
  match s with
  | EmptyString => EmptyString
  | String c r =>
      match skip with
      | S k => replace_from k old new r
      | O =>
          if prefix old s
          then new ++ replace_from (String.length old - 1) old new r
          else String c (replace_from 0 old new r)
      end
  end.

Definition replace (s old new : string) : string := replace_from 0 old new s.

(** [_utc_iso()]; [now_iso] is [datetime.now(timezone.utc).isoformat()]. *)
Definition _utc_iso (now_iso : string) : string := replace now_iso "+00:00" "Z".

(** What [scan_json] reads from the request: the value of the header
    [X-API-Key], if sent, and the parsed JSON body ([None] when
    [request.json()] raises). *)
Record ApiRequest : Type := mkApiRequest {
  x_api_key : option string;
  json_body : option value
}.

(** [JSONResponse(content, status_code=...)] *)
Record JSONResponse : Type := mkJSONResponse {
  status_code : nat;
  content : value
}.

Definition detail (msg : string) : value := VDict [("detail", VStr msg)].

(** [data.get("url") or ""]: [AttributeError] ([None]) when [data] is no
    dict. *)
Definition url_or_empty (data : value) : option value :=
  match data with
  | VDict d =>
      match get d "url" with
      | Some v => Some (if value_truthy v then v else VStr "")
      | None => Some (VStr "")
      end
  | _ => None
  end.

(** [v.strip()]: [AttributeError] ([None]) when [v] is no string. *)
Definition strip_value (v : value) : option string :=
  match v with
  | VStr s => Some (strip s)
  | _ => None
  end.

Section Endpoint.

Variable Float : Type.
Variable py_int : string -> option Z.
Variable py_float : string -> option Float.

Notation "x <- m ;; k" := (bind m (fun x => k))
  (at level 61, m at next level, right associativity).

(** The test [if required_key: ... if provided != required_key]. *)
Definition rejected (w : World Float) (request : ApiRequest) : bool :=
  match environ w "WEBSENTRY_API_KEY" with
  | Some required_key =>
      truthy required_key
      && negb ((match x_api_key request with Some p => p | None => "" end)
               =? required_key)
  | None => false
  end.

(** [scan_json(request)]; [utc_iso] is the value of [_utc_iso()]. *)
Definition scan_json (w : World Float) (http : Webapp.Http) (utc_iso : string)
           (request : ApiRequest) : M Float JSONResponse :=
  if rejected w request
  then ret (mkJSONResponse 401 (detail "Invalid or missing API key"))
  else
    data <- lift (json_body request) ;;
    url_value <- lift (url_or_empty data) ;;
    url <- lift (strip_value url_value) ;;
    if negb (truthy url)
    then ret (mkJSONResponse 400 (detail "Missing url"))
    else
      report <- Webapp._build_report py_int py_float w http utc_iso url ;;
      ret (mkJSONResponse 200 report).

End Endpoint.

Arguments rejected {Float}.
Arguments scan_json {Float}.

End WebappApi.

(* ------------------------------------------------------------------ *)
(** ** llm/openai_client.py *)

Module OpenaiClient.

(** [client.responses.create(model=..., input=...)] followed by
    [.output_text]: [None] when either raises. *)
Definition ResponsesClient : Type := string -> string -> option string.

(** The [input] of the request. *)
Definition review_input (findings_text : string) : string :=
  "You are a security reviewer. Summarize and prioritize the findings. "
  ++ "Group duplicates, assign severity (High/Medium/Low), and give 1-2 mitigations each."
  ++ nl ++ nl
  ++ "FINDINGS:" ++ nl ++ findings_text.

(** [summarize_findings(findings_text)]; [new_client] is
    [OpenAI(api_key=...)]; [None] when an exception leaves the function. *)
Definition summarize_findings (environ : string -> option string)
           (new_client : string -> option ResponsesClient)
           (findings_text : string) : option string :=
  match environ "OPENAI_API_KEY" with
  | Some api_key =>
      if truthy api_key then
        match new_client api_key with
        | Some client => client "gpt-4.1-mini" (review_input findings_text)
        | None => None
        end
      else None
  | None => None
  end.

End OpenaiClient.

(* ------------------------------------------------------------------ *)
(** ** More vocabulary *)

(** Every character of [s] is white space. *)
Fixpoint blank (s : string) : bool :=
  match s with
  | EmptyString => true
  | String c r => isspace c && blank r
  end.

(** The character [c] occurs in [s]. *)
Fixpoint has_char (c : ascii) (s : string) : bool :=
  match s with
  | EmptyString => false
  | String c' r => Ascii.eqb c' c || has_char c r
  end.

(** The first and the last character of [s], if any, are no white space. *)
Definition trimmed (s : string) : Prop := lstrip s = s /\ rstrip s = s.

(** The severity of the finding is one of the three of the breakdown. *)
Definition known_severity (f : Finding) : bool :=
  value_eq_str (get f "severity") "High"
  || value_eq_str (get f "severity") "Medium"
  || value_eq_str (get f "severity") "Low".

(** The finding has exactly the four fields of the rule engine, each a
    string. *)
Definition well_shaped (f : Finding) : Prop :=
  exists t s e m : string,
    f = [ ("title", VStr t); ("severity", VStr s);
          ("evidence", VStr e); ("mitigation", VStr m) ].

(** The request passes the key check of [scan_json]: no key is
    configured, the configured key is empty, or the request carries the
    configured key. *)
Definition authorized {Float} (w : World Float) (request : WebappApi.ApiRequest) : Prop :=
  environ w "WEBSENTRY_API_KEY" = None
  \/ environ w "WEBSENTRY_API_KEY" = Some ""
  \/ exists key, environ w "WEBSENTRY_API_KEY" = Some key
                 /\ WebappApi.x_api_key request = Some key.

(* ------------------------------------------------------------------ *)
(** * Properties *)

(** ** Strings *)

Lemma prefix_app (s t : string) : prefix s (s ++ t) = true.
Proof.
  induction s as [|c s IH]; simpl; [destruct t; reflexivity|].
  destruct (ascii_dec c c) as [_|n]; [exact IH | now elim n].
Qed.

Lemma contains_prefix (sub s : string) :
  prefix sub s = true -> contains sub s = true.
Proof.
  intros H. destruct s; cbn [contains]; rewrite H; reflexivity.
Qed.

Lemma contains_app_r (sub p s : string) :
  contains sub s = true -> contains sub (p ++ s) = true.
Proof.
  intros H. induction p as [|c p IH]; [exact H|].
  cbn [append contains]. rewrite IH. apply orb_true_r.
Qed.

(** A string occurs in every text built around it. *)
Lemma contains_infix (p sub t : string) :
  contains sub (p ++ sub ++ t) = true.
Proof.
  apply contains_app_r, contains_prefix, prefix_app.
Qed.

Lemma contains_suffix (p sub : string) : contains sub (p ++ sub) = true.
Proof.
  apply contains_app_r, contains_prefix.
  replace sub with (sub ++ "") at 2; [apply prefix_app|].
  induction sub as [|c s IH]; simpl; [reflexivity | now rewrite IH].
Qed.

Lemma truthy_nonempty (s : string) : truthy s = true -> s <> "".
Proof.
  unfold truthy. intros H E. subst s. discriminate H.
Qed.

(** ** Dicts *)

Lemma get_in_keys {V} (d : dict V) (k : string) (v : V) :
  get d k = Some v -> In k (keys d).
Proof.
  induction d as [|[k' v'] d IH]; simpl; [discriminate|].
  destruct (String.eqb_spec k' k) as [->|_]; auto.
Qed.

Lemma in_keys_get {V} (d : dict V) (k : string) :
  In k (keys d) -> exists v, get d k = Some v.
Proof.
  induction d as [|[k' v'] d IH]; simpl; [tauto|].
  intros [->|H].
  - rewrite String.eqb_refl. eauto.
  - destruct (k' =? k); eauto.
Qed.

Lemma mem_true_iff {V} (d : dict V) (k : string) :
  mem k d = true <-> In k (keys d).
Proof.
  unfold mem. split.
  - destruct (get d k) eqn:E; [intros _; eapply get_in_keys; eauto | discriminate].
  - intros H. destruct (in_keys_get d k H) as [v ->]. reflexivity.
Qed.

Lemma set_fresh {V} (d : dict V) (k : string) (v : V) :
  ~ In k (keys d) -> set d k v = (d ++ [(k, v)])%list.
Proof.
  induction d as [|[k' v'] d IH]; simpl; [reflexivity|].
  intros H. destruct (String.eqb_spec k' k) as [->|_]; [tauto|].
  rewrite IH; tauto.
Qed.

(** ** The rule engine *)

Section RuleEngine.

Import Cli.

(** The lower-case spelling of a header name is a header of that name. *)
Lemma mem_has_header (name : string) (headers : dict string) :
  lower name = name -> mem name headers = true -> has_header name headers = true.
Proof.
  intros Hl Hm. apply mem_true_iff in Hm.
  unfold has_header. apply existsb_exists. exists name. split; [exact Hm|].
  rewrite Hl. apply String.eqb_refl.
Qed.

(** On lower-case keys the two notions of presence agree. *)
Lemma has_header_lowercase (name : string) (headers : dict string) :
  lowercase_keys headers -> has_header name headers = mem name headers.
Proof.
  intros Hk. unfold lowercase_keys in Hk. rewrite Forall_forall in Hk.
  destruct (mem name headers) eqn:Hm.
  - apply mem_true_iff in Hm. apply existsb_exists. exists name. split; [exact Hm|].
    rewrite (Hk _ Hm). apply String.eqb_refl.
  - destruct (has_header name headers) eqn:Hh; [|reflexivity].
    apply existsb_exists in Hh. destruct Hh as [k [Hin Hk']].
    apply String.eqb_eq in Hk'. rewrite (Hk _ Hin) in Hk'. subst k.
    apply mem_true_iff in Hin. congruence.
Qed.

(** What the first rule does: the finding is reported exactly when no key
    is spelled ["content-security-policy"], and then once. *)
Lemma csp_rule_exact (headers : dict string) :
  length (matching "Missing Content-Security-Policy header" "Medium"
            (run_rule_based_checks headers))
  = if mem "content-security-policy" headers then 0 else 1.
Proof.
  unfold run_rule_based_checks.
  destruct (mem "content-security-policy" headers),
           (mem "x-frame-options" headers),
           (mem "server" headers); reflexivity.
Qed.

(** The half of the Content-Security-Policy property that holds for every
    header map: without the header, in any spelling, the finding is there
    exactly once. *)
Lemma csp_rule_reports_absence (headers : dict string) :
  has_header "content-security-policy" headers = false ->
  length (matching "Missing Content-Security-Policy header" "Medium"
            (run_rule_based_checks headers)) = 1.
Proof.
  intros H. rewrite csp_rule_exact.
  destruct (mem "content-security-policy" headers) eqn:Hm; [|reflexivity].
  apply mem_has_header in Hm; [congruence | reflexivity].
Qed.

(** What the third rule does: a key spelled ["server"] yields a Low
    finding whose evidence ends with that header's value. *)
Lemma server_rule_exact (headers : dict string) (v : string) :
  get headers "server" = Some v ->
  existsb (fun f => value_eq_str (get f "severity") "Low" && evidence_includes v f)
    (run_rule_based_checks headers) = true.
Proof.
  intros Hg. apply existsb_exists. exists (server_finding headers). split.
  - unfold run_rule_based_checks, mem. rewrite Hg.
    destruct (get headers "content-security-policy"), (get headers "x-frame-options");
      simpl; auto.
  - unfold server_finding, evidence_includes. simpl. rewrite Hg. simpl.
    apply (contains_suffix "Server header present: " v).
Qed.

(** With header names in lower case, as the browser of the command line
    hands them over, both header properties hold in full. *)
Lemma rules_correct_on_lowercase_keys (headers : dict string) :
  lowercase_keys headers ->
  length (matching "Missing Content-Security-Policy header" "Medium"
            (run_rule_based_checks headers))
  = (if has_header "content-security-policy" headers then 0 else 1)
  /\ (has_header "server" headers = true ->
      exists v, get headers "server" = Some v /\
        existsb (fun f => value_eq_str (get f "severity") "Low" && evidence_includes v f)
          (run_rule_based_checks headers) = true).
Proof.
  intros Hk. split.
  - rewrite (has_header_lowercase _ _ Hk). apply csp_rule_exact.
  - rewrite (has_header_lowercase _ _ Hk). intros Hm.
    apply mem_true_iff in Hm. destruct (in_keys_get _ _ Hm) as [v Hv].
    exists v. split; [exact Hv | apply server_rule_exact; exact Hv].
Qed.

End RuleEngine.

(** ** The summariser *)

Section SummarizerFacts.

Variable Float : Type.
Variable py_int : string -> option Z.
Variable py_float : string -> option Float.

(** The fallback text always starts with the same words. *)
Lemma fallback_nonempty (url title : string) (findings : list Finding) :
  rule_based_executive_summary url title findings <> "".
Proof.
  unfold rule_based_executive_summary.
  destruct findings as [|f fs]; [reflexivity || (unfold no_issues_text; discriminate)|].
  destruct (posture_priority _ _) as [posture priority]. discriminate.
Qed.

(** The [try] block ends as its content says. *)
Lemma llm_summary_unfold (w : World Float) (url title : string)
      (findings : list Finding) (fallback : string) (log : list (Request Float)) :
  llm_summary py_int py_float w url title findings fallback log =
  match llm_content py_int py_float w url title findings log with
  | (Val c, log') => (Val (if truthy (text_of c) then text_of c else fallback), log')
  | (Exn, log') => (Exn, log')
  end.
Proof.
  unfold llm_summary, bind, ret.
  destruct (llm_content py_int py_float w url title findings log) as [[c|] log'];
    reflexivity.
Qed.

(** The summariser, by cases on the configuration and on the content. *)
Lemma generate_unfold (w : World Float) (url title : string)
      (findings : list Finding) (log : list (Request Float)) :
  generate_executive_summary py_int py_float w url title findings log =
  let fallback := rule_based_executive_summary url title findings in
  if llm_enabled w then
    match llm_content py_int py_float w url title findings log with
    | (Val c, log') => (Val (if truthy (text_of c) then text_of c else fallback), log')
    | (Exn, log') => (Val fallback, log')
    end
  else (Val fallback, log).
Proof.
  unfold generate_executive_summary. cbv zeta.
  destruct (llm_enabled w); cbn [negb]; [|reflexivity].
  unfold try_except. rewrite llm_summary_unfold.
  destruct (llm_content py_int py_float w url title findings log) as [[c|] log'];
    reflexivity.
Qed.

(** The summariser always returns, and never the empty string. *)
Lemma generate_total (w : World Float) (url title : string)
      (findings : list Finding) (log : list (Request Float)) :
  exists s log',
    generate_executive_summary py_int py_float w url title findings log = (Val s, log')
    /\ s <> "".
Proof.
  rewrite generate_unfold. cbv zeta.
  pose proof (fallback_nonempty url title findings) as Hf.
  destruct (llm_enabled w); [|eauto].
  destruct (llm_content py_int py_float w url title findings log) as [[c|] log'];
    [|eauto].
  destruct (truthy (text_of c)) eqn:Ht; [|eauto].
  exists (text_of c), log'. split; [reflexivity | now apply truthy_nonempty].
Qed.

Lemma sends_ret {A} (a : A) : sends_at_most (Float:=Float) 0 (ret a).
Proof.
  intros log r log' [= _ <-]. exists []. now rewrite app_nil_r.
Qed.

Lemma sends_lift {A} (o : option A) : sends_at_most (Float:=Float) 0 (lift o).
Proof.
  intros log r log'. destruct o; intros [= _ <-]; exists []; now rewrite app_nil_r.
Qed.

Lemma sends_create (client : Client Float) (req : Request Float) :
  sends_at_most 1 (create client req).
Proof.
  intros log r log' [= _ <-]. exists [req]. split; [reflexivity | apply le_n].
Qed.

Lemma sends_bind {A B} (n k t : nat) (m : M Float A) (f : A -> M Float B) :
  sends_at_most n m -> (forall a, sends_at_most k (f a)) -> n + k <= t ->
  sends_at_most t (bind m f).
Proof.
  intros Hm Hf Ht log r log'. unfold bind.
  destruct (m log) as [[a|] log1] eqn:E; destruct (Hm _ _ _ E) as [r1 [-> H1]].
  - intros E2. destruct (Hf a _ _ _ E2) as [r2 [-> H2]].
    exists (r1 ++ r2)%list. rewrite app_assoc, length_app. split; [reflexivity | lia].
  - intros [= _ <-]. exists r1. split; [reflexivity | lia].
Qed.

(** The [try] block sends at most one request to the capability. *)
Lemma llm_content_requests (w : World Float) (url title : string)
      (findings : list Finding) :
  sends_at_most 1 (llm_content py_int py_float w url title findings).
Proof.
  unfold llm_content.
  apply (sends_bind 0 1); [apply sends_lift | intros client | apply le_n].
  cbv zeta.
  apply (sends_bind 0 1); [ | intros issues | apply le_n].
  { destruct (top_titles findings); [apply sends_ret | apply sends_lift]. }
  apply (sends_bind 0 1); [apply sends_lift | intros max_tokens | apply le_n].
  apply (sends_bind 0 1); [apply sends_lift | intros temperature | apply le_n].
  apply (sends_bind 1 0); [apply sends_create | intros resp; apply sends_lift | apply le_n].
Qed.

(** When every call of the capability raises, so does the [try] block. *)
Lemma llm_content_call_raises (w : World Float) (client : Client Float)
      (url title : string) (findings : list Finding) (log : list (Request Float)) :
  openai w = Some client -> (forall req, client req = None) ->
  fst (llm_content py_int py_float w url title findings log) = Exn.
Proof.
  intros Ho Hc. unfold llm_content, bind, lift, create, ret, raise. rewrite Ho.
  destruct (top_titles findings) as [|t ts].
  - destruct (py_int _); [|reflexivity]. destruct (py_float _); [|reflexivity].
    rewrite Hc. reflexivity.
  - destruct (join_values _ _); [|reflexivity].
    destruct (py_int _); [|reflexivity]. destruct (py_float _); [|reflexivity].
    rewrite Hc. reflexivity.
Qed.

End SummarizerFacts.

(** ** The fallback text *)

Lemma count_severity_pos (sev : string) (findings : list Finding) :
  has_severity sev findings = true <-> 0 < count_severity sev findings.
Proof.
  unfold has_severity, count_severity.
  induction findings as [|f fs IH]; simpl.
  - split; [discriminate | intros H; inversion H].
  - destruct (value_eq_str (get f "severity") sev); simpl.
    + split; [intros _; apply Nat.lt_0_succ | reflexivity].
    + exact IH.
Qed.

Lemma count_severity_zero (sev : string) (findings : list Finding) :
  has_severity sev findings = false <-> count_severity sev findings = 0.
Proof.
  pose proof (count_severity_pos sev findings) as H.
  destruct (has_severity sev findings).
  - split; [discriminate|]. intros E. rewrite E in H.
    destruct H as [H _]. specialize (H eq_refl). inversion H.
  - split; [|reflexivity]. intros _.
    destruct (count_severity sev findings); [reflexivity|].
    destruct H as [_ H]. specialize (H (Nat.lt_0_succ _)). discriminate.
Qed.

(** The text for a non-empty list, laid out around its two variable
    parts: the sentence of the counts, and what follows it. *)
Lemma summary_layout (url title : string) (f : Finding) (fs : list Finding) :
  let findings := f :: fs in
  let high := count_severity "High" findings in
  let med := count_severity "Medium" findings in
  let low := count_severity "Low" findings in
  rule_based_executive_summary url title findings =
  "A lightweight security review of " ++ url ++ " (" ++ title ++ ") identified "
  ++ counts_text (length findings) high med low
  ++ ". Overall, the application presents a " ++ fst (posture_priority high med) ++ " "
  ++ "security posture driven primarily by configuration and security header gaps. "
  ++ "It is recommended to " ++ snd (posture_priority high med)
  ++ " and re-test to validate remediation.".
Proof.
  cbv zeta. unfold rule_based_executive_summary.
  destruct (posture_priority _ _) as [posture priority]. reflexivity.
Qed.

Lemma summary_states_counts (url title : string) (f : Finding) (fs : list Finding) :
  let findings := f :: fs in
  contains (counts_text (length findings) (count_severity "High" findings)
              (count_severity "Medium" findings) (count_severity "Low" findings))
    (rule_based_executive_summary url title findings) = true.
Proof.
  cbv zeta. rewrite summary_layout.
  do 5 apply contains_app_r. apply contains_prefix, prefix_app.
Qed.

Lemma summary_posture (url title : string) (f : Finding) (fs : list Finding) :
  let findings := f :: fs in
  contains ("presents a "
            ++ fst (posture_priority (count_severity "High" findings)
                      (count_severity "Medium" findings))
            ++ " security posture")
    (rule_based_executive_summary url title findings) = true.
Proof.
  cbv zeta. rewrite summary_layout.
  do 6 apply contains_app_r.
  unfold posture_priority.
  destruct (0 <? count_severity "High" (f :: fs))%nat;
    [|destruct (0 <? count_severity "Medium" (f :: fs))%nat];
    cbn [fst snd]; reflexivity.
Qed.

(** C7 (as amended).  For every findings list the fallback summary
    classifies the posture from the highest severity present: some High
    finding gives the wording "elevated risk", else some Medium finding
    gives "moderate risk", else (in particular with some Low finding) it
    gives "low-to-moderate risk"; the empty list gives the no-issues text.
    For every non-empty list the text states the total and the High,
    Medium and Low counts.  One Medium and one Low finding give a text
    with "2 issue(s): 0 High, 1 Medium" and "moderate risk". *)
Theorem C7_fallback_posture_and_counts :
  forall (url title : string) (findings : list Finding),
    let s := rule_based_executive_summary url title findings in
    (findings = [] -> s = no_issues_text url title)
    /\ (findings <> [] ->
        contains (counts_text (length findings) (count_severity "High" findings)
                    (count_severity "Medium" findings) (count_severity "Low" findings)) s
        = true
        /\ (has_severity "High" findings = true ->
            contains "presents a elevated risk security posture" s = true)
        /\ (has_severity "High" findings = false ->
            has_severity "Medium" findings = true ->
            contains "presents a moderate risk security posture" s = true)
        /\ (has_severity "High" findings = false ->
            has_severity "Medium" findings = false ->
            contains "presents a low-to-moderate risk security posture" s = true))
    /\ (forall m l : Finding,
          get m "severity" = Some (VStr "Medium") ->
          get l "severity" = Some (VStr "Low") ->
          findings = [m; l] ->
          contains "2 issue(s): 0 High, 1 Medium" s = true
          /\ contains "moderate risk" s = true).
Proof.
  intros url title findings s. subst s. split; [|split].
  - intros ->. reflexivity.
  - intros Hne. destruct findings as [|f fs]; [now elim Hne|].
    split; [apply summary_states_counts|].
    pose proof (summary_posture url title f fs) as Hp. cbv zeta in Hp.
    unfold posture_priority in Hp.
    split; [|split].
    + intros Hh. apply count_severity_pos in Hh. apply Nat.ltb_lt in Hh.
      rewrite Hh in Hp. exact Hp.
    + intros Hh Hm. apply count_severity_zero in Hh.
      apply count_severity_pos in Hm. apply Nat.ltb_lt in Hm.
      rewrite Hh, Hm in Hp. exact Hp.
    + intros Hh Hm. apply count_severity_zero in Hh. apply count_severity_zero in Hm.
      rewrite Hh, Hm in Hp. exact Hp.
  - intros m l Hm Hl ->. rewrite summary_layout. cbv zeta.
    unfold count_severity. cbn [filter]. rewrite Hm, Hl. cbn [value_eq_str].
    split; do 5 apply contains_app_r; reflexivity.
Qed.

(** C7, an instance: the two findings of an empty header map, and a list
    with a High finding. *)
Lemma C7_fallback_posture_and_counts_witness :
  contains "2 issue(s): 0 High, 1 Medium"
    (rule_based_executive_summary Demo.url "Demo" [Cli.csp_finding; Cli.xfo_finding]) = true
  /\ contains "moderate risk"
    (rule_based_executive_summary Demo.url "Demo" [Cli.csp_finding; Cli.xfo_finding]) = true
  /\ contains (counts_text 2 0 1 1)
    (rule_based_executive_summary Demo.url "Demo" [Cli.csp_finding; Cli.xfo_finding]) = true
  /\ contains "presents a elevated risk security posture"
    (rule_based_executive_summary Demo.url "Demo" [[("severity", VStr "High")]]) = true
  /\ rule_based_executive_summary Demo.url "Demo" [] = no_issues_text Demo.url "Demo".
Proof.
  pose proof (C7_fallback_posture_and_counts Demo.url "Demo"
                [Cli.csp_finding; Cli.xfo_finding]) as [_ [Hc Hml]].
  destruct (Hml Cli.csp_finding Cli.xfo_finding eq_refl eq_refl eq_refl) as [H1 H2].
  destruct Hc as [Hcount _]; [discriminate|].
  pose proof (C7_fallback_posture_and_counts Demo.url "Demo"
                [[("severity", VStr "High")]]) as [_ [Hh _]].
  destruct Hh as [_ [Hhigh _]]; [discriminate|].
  pose proof (C7_fallback_posture_and_counts Demo.url "Demo" []) as [He _].
  exact (conj H1 (conj H2 (conj Hcount (conj (Hhigh eq_refl) (He eq_refl))))).
Defined.

(** C7 as written fails on the empty list: its text names no count, not
    even the figure 0. *)
Lemma C7_counterexample_empty_list :
  contains (counts_text 0 0 0 0) (rule_based_executive_summary Demo.url "Demo" []) = false
  /\ contains "0" (rule_based_executive_summary Demo.url "Demo" []) = false
  /\ contains "High" (rule_based_executive_summary Demo.url "Demo" []) = false.
Proof.
  repeat split; vm_compute; reflexivity.
Qed.

(** ** The summariser: claims *)

(** C1.  For every url, title and list of findings, every environment,
    every outcome of the import, of the client, of [int] and [float], and
    every behaviour of the external call (an answer of any shape, or an
    exception), [generate_executive_summary] returns a string, the string
    is not empty, and no exception leaves it. *)
Theorem C1_summary_never_raises_never_empty :
  forall (Float : Type) (py_int : string -> option Z)
         (py_float : string -> option Float)
         (w : World Float) (url title : string) (findings : list Finding)
         (log : list (Request Float)),
  exists (s : string) (log' : list (Request Float)),
    generate_executive_summary py_int py_float w url title findings log = (Val s, log')
    /\ s <> "".
Proof.
  intros. apply generate_total.
Qed.

(** C2 (as amended).  With the capability disabled the summariser returns
    the fallback and sends nothing to the capability.  With the capability
    enabled it sends at most one request; it returns the text of the
    answer with the white space around it stripped when the call succeeds
    and that stripped text is not empty, and the fallback when the [try]
    block raises or when the answer is [None], empty or blank. *)
Theorem C2_fallback_or_stripped_text :
  forall (Float : Type) (py_int : string -> option Z)
         (py_float : string -> option Float)
         (w : World Float) (url title : string) (findings : list Finding)
         (log : list (Request Float)),
    let fallback := rule_based_executive_summary url title findings in
    let result := generate_executive_summary py_int py_float w url title findings log in
    (llm_enabled w = false -> result = (Val fallback, log))
    /\ (llm_enabled w = true ->
        forall outcome log',
          llm_content py_int py_float w url title findings log = (outcome, log') ->
          (exists reqs, log' = (log ++ reqs)%list /\ length reqs <= 1)
          /\ match outcome with
             | Exn => result = (Val fallback, log')
             | Val content =>
                 (truthy (text_of content) = true ->
                  result = (Val (text_of content), log'))
                 /\ (truthy (text_of content) = false ->
                     result = (Val fallback, log'))
             end).
Proof.
  intros Float py_int py_float w url title findings log fallback result.
  subst result. rewrite generate_unfold. cbv zeta. fold fallback. split.
  - intros ->. reflexivity.
  - intros -> outcome log' E. split.
    + exact (llm_content_requests Float py_int py_float w url title findings _ _ _ E).
    + rewrite E. destruct outcome as [content|]; [|reflexivity].
      split; intros ->; reflexivity.
Qed.

(** C2, instances: disabled; enabled with an answer wrapped in blanks;
    enabled with a call that raises. *)
Lemma C2_fallback_or_stripped_text_witness :
  generate_executive_summary Demo.py_int Demo.py_float Demo.world_disabled
    Demo.url "Demo" [] []
  = (Val (rule_based_executive_summary Demo.url "Demo" []), [])
  /\ fst (generate_executive_summary Demo.py_int Demo.py_float
            (Demo.world_answering (Some "  Risk is low.  ")) Demo.url "Demo" [] [])
     = Val "Risk is low."
  /\ fst (generate_executive_summary Demo.py_int Demo.py_float Demo.world_timeout
            Demo.url "Demo" [] [])
     = Val (rule_based_executive_summary Demo.url "Demo" []).
Proof.
  split; [|split].
  - apply (C2_fallback_or_stripped_text Demo.Float Demo.py_int Demo.py_float
             Demo.world_disabled Demo.url "Demo" [] []).
    reflexivity.
  - destruct (llm_content Demo.py_int Demo.py_float
                (Demo.world_answering (Some "  Risk is low.  ")) Demo.url "Demo" [] [])
      as [outcome log'] eqn:E.
    destruct (proj2 (C2_fallback_or_stripped_text Demo.Float Demo.py_int Demo.py_float
                (Demo.world_answering (Some "  Risk is low.  ")) Demo.url "Demo" [] [])
                eq_refl outcome log' E) as [_ H].
    vm_compute in E. inversion E; subst outcome log'.
    destruct H as [H _]. rewrite (H eq_refl). reflexivity.
  - destruct (llm_content Demo.py_int Demo.py_float Demo.world_timeout
                Demo.url "Demo" [] []) as [outcome log'] eqn:E.
    destruct (proj2 (C2_fallback_or_stripped_text Demo.Float Demo.py_int Demo.py_float
                Demo.world_timeout Demo.url "Demo" [] [])
                eq_refl outcome log' E) as [_ H].
    vm_compute in E. inversion E; subst outcome log'.
    rewrite H. reflexivity.
Defined.

(** C2 as written fails where the call succeeds with a text that is not
    empty but blank: the fallback is returned, not that text; and a text
    wrapped in blanks is not returned as it is. *)
Lemma C2_counterexample_blank_answer :
  llm_enabled (Demo.world_answering (Some " ")) = true
  /\ fst (llm_content Demo.py_int Demo.py_float (Demo.world_answering (Some " "))
            Demo.url "Demo" [] []) = Val (Some " ")
  /\ truthy " " = true
  /\ fst (generate_executive_summary Demo.py_int Demo.py_float
            (Demo.world_answering (Some " ")) Demo.url "Demo" [] [])
     = Val (rule_based_executive_summary Demo.url "Demo" [])
  /\ (rule_based_executive_summary Demo.url "Demo" [] =? " ") = false
  /\ fst (generate_executive_summary Demo.py_int Demo.py_float
            (Demo.world_answering (Some " ok ")) Demo.url "Demo" [] [])
     = Val "ok".
Proof.
  repeat split; vm_compute; reflexivity.
Qed.

(** ** Sorting keys, and the two header samples *)

Lemma in_firstn {A} (n : nat) (l : list A) (x : A) :
  In x (firstn n l) -> In x l.
Proof.
  revert l. induction n as [|n IH]; intros [|a l]; simpl; try tauto.
  intros [->|H]; auto.
Qed.

Lemma NoDup_firstn {A} (n : nat) (l : list A) :
  NoDup l -> NoDup (firstn n l).
Proof.
  revert l. induction n as [|n IH]; intros [|a l] H; simpl; try constructor.
  - inversion H; subst. intros Hin. apply in_firstn in Hin. contradiction.
  - inversion H; subst. auto.
Qed.

Lemma insert_sorted_perm (k : string) (l : list string) :
  Permutation (insert_sorted k l) (k :: l).
Proof.
  induction l as [|a l IH]; simpl; [reflexivity|].
  destruct (k <=? a)%string; [reflexivity|].
  rewrite IH. apply perm_swap.
Qed.

Lemma sorted_perm (l : list string) : Permutation (sorted l) l.
Proof.
  induction l as [|a l IH]; simpl; [reflexivity|].
  rewrite insert_sorted_perm. now constructor.
Qed.

Lemma is_sorted_cons (k : string) (l : list string) :
  is_sorted (k :: l) = true <->
  match l with [] => True | k' :: _ => (k <=? k')%string = true end
  /\ is_sorted l = true.
Proof.
  destruct l as [|k' l]; cbn [is_sorted].
  - tauto.
  - rewrite andb_true_iff. tauto.
Qed.

Lemma is_sorted_insert (k : string) (l : list string) :
  is_sorted l = true -> is_sorted (insert_sorted k l) = true.
Proof.
  induction l as [|a l IH]; intros Hs; [reflexivity|].
  cbn [insert_sorted]. destruct (k <=? a)%string eqn:E.
  - apply is_sorted_cons. split; assumption.
  - assert (Ha : (a <=? k)%string = true)
      by (destruct (String.leb_total a k); congruence).
    apply is_sorted_cons in Hs. destruct Hs as [Hhd Hs].
    apply is_sorted_cons. split; [|auto].
    destruct l as [|a' l']; cbn [insert_sorted]; [exact Ha|].
    destruct (k <=? a')%string; assumption.
Qed.

Lemma sorted_is_sorted (l : list string) : is_sorted (sorted l) = true.
Proof.
  induction l as [|a l IH]; [reflexivity|]. simpl. now apply is_sorted_insert.
Qed.

Lemma is_sorted_firstn (n : nat) (l : list string) :
  is_sorted l = true -> is_sorted (firstn n l) = true.
Proof.
  revert l. induction n as [|n IH]; intros [|a l] H; try reflexivity.
  cbn [firstn]. apply is_sorted_cons in H. destruct H as [Hhd H].
  apply is_sorted_cons. split; [|auto].
  destruct l as [|a' l']; [destruct n; exact I|].
  destruct n; [exact I | exact Hhd].
Qed.

(** Neighbours of a sorted list without repetition strictly increase. *)
Lemma is_sorted_NoDup_strict (l : list string) :
  is_sorted l = true -> NoDup l -> Sorted (fun a b => (a <? b)%string = true) l.
Proof.
  induction l as [|a l IH]; intros Hs Hn; [constructor|].
  apply is_sorted_cons in Hs. destruct Hs as [Hhd Hs].
  inversion Hn as [|? ? Hnotin Hn']; subst.
  constructor; [auto|].
  destruct l as [|b l]; constructor.
  unfold String.ltb. unfold String.leb in Hhd.
  destruct (a ?= b)%string eqn:E; try reflexivity; try discriminate.
  apply String.compare_eq_iff in E. subst b. elim Hnotin. now left.
Qed.

Section Samples.

Import Cli.

Lemma keys_app {V} (d1 d2 : dict V) : keys (d1 ++ d2)%list = (keys d1 ++ keys d2)%list.
Proof.
  apply map_app.
Qed.

(** The comprehension never raises on keys of the dict itself. *)
Lemma comprehension_total (headers : dict string) (ks : list string) :
  (forall k, In k ks -> In k (keys headers)) ->
  forall acc, exists d, comprehension headers ks acc = Some d.
Proof.
  induction ks as [|k ks IH]; intros Hin acc; simpl; [eauto|].
  destruct (in_keys_get headers k (Hin k (or_introl eq_refl))) as [v ->].
  apply IH. intros k' Hk'. apply Hin. now right.
Qed.

(** On distinct fresh keys the comprehension appends one entry per key,
    in the order of the keys, each with the value the dict has for it. *)
Lemma comprehension_fresh (headers : dict string) (ks : list string) :
  NoDup ks -> (forall k, In k ks -> In k (keys headers)) ->
  forall acc, (forall k, In k ks -> ~ In k (keys acc)) ->
  exists vs, comprehension headers ks acc = Some (acc ++ vs)%list
             /\ keys vs = ks
             /\ Forall (fun kv => option_map VStr (get headers (fst kv)) = Some (snd kv)) vs.
Proof.
  induction ks as [|k ks IH]; intros Hnd Hin acc Hfresh; simpl.
  - exists []. rewrite app_nil_r. repeat split. constructor.
  - inversion Hnd as [|? ? Hk Hnd']; subst.
    destruct (in_keys_get headers k (Hin k (or_introl eq_refl))) as [v Hv].
    rewrite Hv. rewrite set_fresh by (apply Hfresh; now left).
    destruct (IH Hnd' (fun k' H => Hin k' (or_intror H)) (acc ++ [(k, VStr v)])%list)
      as [vs [E [Hkeys Hvals]]].
    + intros k' Hk' Hin'. rewrite keys_app in Hin'. apply in_app_or in Hin'.
      destruct Hin' as [Hin'|[<-|[]]].
      * apply (Hfresh k'); [now right | exact Hin'].
      * contradiction.
    + exists ((k, VStr v) :: vs). rewrite E, <- app_assoc. repeat split.
      * simpl. now rewrite Hkeys.
      * constructor; [simpl; now rewrite Hv | exact Hvals].
Qed.

(** [dict(pairs)] of pairs with distinct keys is the list of the pairs. *)
Lemma of_items_fresh {V} (l : list (string * V)) :
  NoDup (keys l) ->
  forall acc, (forall k, In k (keys l) -> ~ In k (keys acc)) ->
  fold_left (fun d kv => set d (fst kv) (snd kv)) l acc = (acc ++ l)%list.
Proof.
  induction l as [|[k v] l IH]; intros Hnd acc Hfresh; simpl.
  - now rewrite app_nil_r.
  - inversion Hnd as [|? ? Hk Hnd']; subst.
    rewrite set_fresh by (apply Hfresh; now left).
    rewrite IH; [now rewrite <- app_assoc | exact Hnd' |].
    intros k' Hk' Hin'. rewrite keys_app in Hin'. apply in_app_or in Hin'.
    destruct Hin' as [Hin'|[<-|[]]].
    + apply (Hfresh k'); [now right | exact Hin'].
    + contradiction.
Qed.

(** The sample of the command line: at most 25 entries, keys sorted and
    distinct, every entry taken from the header map. *)
Lemma cli_sample_sorted (headers : dict string) :
  wf headers ->
  exists sample,
    Cli.headers_sample headers = Some sample
    /\ length sample <= 25
    /\ is_sorted (keys sample) = true
    /\ NoDup (keys sample)
    /\ Forall (fun kv => option_map VStr (get headers (fst kv)) = Some (snd kv)) sample.
Proof.
  intros Hwf. unfold Cli.headers_sample.
  set (ks := firstn 25 (sorted (keys headers))).
  assert (Hnd : NoDup ks).
  { apply NoDup_firstn.
    apply (Permutation_NoDup (Permutation_sym (sorted_perm (keys headers)))). exact Hwf. }
  assert (Hin : forall k, In k ks -> In k (keys headers)).
  { intros k Hk. apply in_firstn in Hk.
    apply (Permutation_in _ (sorted_perm (keys headers))). exact Hk. }
  destruct (comprehension_fresh headers ks Hnd Hin [] (fun _ _ H => H))
    as [vs [E [Hkeys Hvals]]].
  exists vs. simpl in E. repeat split; try assumption.
  - rewrite <- (length_map fst vs). change (map fst vs) with (keys vs).
    rewrite Hkeys. apply firstn_le_length.
  - rewrite Hkeys. apply is_sorted_firstn, sorted_is_sorted.
  - now rewrite Hkeys.
Qed.

(** The sample of the command line exists for every header map. *)
Lemma cli_sample_total (headers : dict string) :
  exists sample, Cli.headers_sample headers = Some sample.
Proof.
  apply comprehension_total. intros k Hk. apply in_firstn in Hk.
  apply (Permutation_in _ (sorted_perm (keys headers))). exact Hk.
Qed.

(** The sample of the web application: the first 20 entries of the header
    map, in the order of the header map. *)
Lemma web_sample_prefix (headers : dict string) :
  wf headers ->
  Webapp.headers_sample headers
  = firstn 20 (map (fun kv => (fst kv, VStr (snd kv))) headers).
Proof.
  intros Hwf. unfold Webapp.headers_sample, of_items, items.
  rewrite of_items_fresh; [reflexivity | | tauto].
  unfold keys. rewrite <- firstn_map, map_map. cbn [fst].
  apply NoDup_firstn. exact Hwf.
Qed.

End Samples.

(** ** The two report assemblers *)

(** After a successful fetch the web application always assembles a
    report, around a summary that is not empty. *)
Lemma build_report_runs (Float : Type) (py_int : string -> option Z)
      (py_float : string -> option Float) (w : World Float) (http : Webapp.Http)
      (utc url title : string) (headers : dict string) (log : list (Request Float)) :
  Webapp.fetch_page_title_and_headers http url = Some (title, headers) ->
  exists s log',
    generate_executive_summary py_int py_float w url title
      (Cli.run_rule_based_checks headers) log = (Val s, log')
    /\ s <> ""
    /\ Webapp._build_report py_int py_float w http utc url log
       = (Val (Webapp.assemble w utc url title headers
                 (Cli.run_rule_based_checks headers) s), log').
Proof.
  intros Hf.
  destruct (generate_total Float py_int py_float w url title
              (Cli.run_rule_based_checks headers) log) as [s [log' [E Hs]]].
  exists s, log'. split; [exact E|]. split; [exact Hs|].
  unfold Webapp._build_report, bind. rewrite Hf. cbn [lift]. unfold ret at 1.
  cbv beta iota zeta. rewrite E. reflexivity.
Qed.

(** The report of the command line exists for every header map and every
    findings list. *)
Lemma cli_assemble_total (url title : string) (headers : dict string)
      (findings : list Finding) (utcnow : string) :
  exists sample,
    Cli.headers_sample headers = Some sample
    /\ Cli.assemble url title headers findings utcnow
       = Some (VDict
          [ ("url", VStr url);
            ("title", VStr title);
            ("headers_sample", VDict sample);
            ("findings", VList (map VDict findings));
            ("meta", VDict [ ("tool", VStr "WebSentry AI");
                             ("version", VStr "0.1.0");
                             ("scanned_at", VStr (utcnow ++ "Z")) ]);
            ("summary",
             VDict [ ("total_findings", VInt (Z.of_nat (length findings)));
                     ("severity_breakdown",
                      VDict [ ("High", VInt (Z.of_nat (count_severity "High" findings)));
                              ("Medium", VInt (Z.of_nat (count_severity "Medium" findings)));
                              ("Low", VInt (Z.of_nat (count_severity "Low" findings))) ]) ]) ]).
Proof.
  destruct (cli_sample_total headers) as [sample E].
  exists sample. split; [exact E|]. unfold Cli.assemble. rewrite E. reflexivity.
Qed.

(** C5 (as amended).  For every header map the fetch stage returns,
    whatever its size: the [headers_sample] of the report of the command
    line ([main]) has at most 25 entries, taken from the header map, with
    keys in sorted order, each key below the next; the [headers_sample] of the report of
    the web application ([_build_report]) is the first 20 entries of the
    header map at most, in the order of the header map. *)
Theorem C5_headers_sample_bounded :
  forall headers : dict string,
    wf headers ->
    (forall (url title : string) (findings : list Finding) (utcnow : string),
        exists report sample,
          Cli.assemble url title headers findings utcnow = Some report
          /\ lookup_path ["headers_sample"] report = Some (VDict sample)
          /\ length sample <= 25
          /\ is_sorted (keys sample) = true
          /\ Sorted (fun a b => (a <? b)%string = true) (keys sample)
          /\ Forall (fun kv => option_map VStr (get headers (fst kv)) = Some (snd kv))
               sample)
    /\ (forall (Float : Type) (py_int : string -> option Z)
               (py_float : string -> option Float) (w : World Float)
               (http : Webapp.Http) (utc url title : string)
               (log : list (Request Float)),
          Webapp.fetch_page_title_and_headers http url = Some (title, headers) ->
          exists report log' sample,
            Webapp._build_report py_int py_float w http utc url log = (Val report, log')
            /\ lookup_path ["headers_sample"] report = Some (VDict sample)
            /\ sample = firstn 20 (map (fun kv => (fst kv, VStr (snd kv))) headers)
            /\ length sample <= 20).
Proof.
  intros headers Hwf. split.
  - intros url title findings utcnow.
    destruct (cli_sample_sorted headers Hwf) as [sample [E [Hlen [Hs [Hnd Hv]]]]].
    destruct (cli_assemble_total url title headers findings utcnow)
      as [sample' [E' Ha]].
    rewrite E in E'. injection E' as <-.
    eexists. exists sample. split; [exact Ha|].
    split; [reflexivity|].
    pose proof (is_sorted_NoDup_strict _ Hs Hnd). auto.
  - intros Float py_int py_float w http utc url title log Hf.
    destruct (build_report_runs Float py_int py_float w http utc url title headers log Hf)
      as [s [log' [_ [_ E]]]].
    eexists. exists log'. eexists. split; [exact E|].
    split; [reflexivity|]. split; [apply web_sample_prefix; exact Hwf|].
    rewrite web_sample_prefix by exact Hwf. apply firstn_le_length.
Qed.

(** C5, an instance: two headers that the server sends out of key order. *)
Lemma C5_headers_sample_bounded_witness :
  wf Demo.unsorted_headers
  /\ (exists report sample,
        Cli.assemble Demo.url "Demo" Demo.unsorted_headers [] Demo.stamp = Some report
        /\ lookup_path ["headers_sample"] report = Some (VDict sample)
        /\ length sample <= 25
        /\ is_sorted (keys sample) = true)
  /\ (exists report log' sample,
        Webapp._build_report Demo.py_int Demo.py_float Demo.world_disabled
          Demo.http_unsorted Demo.stamp Demo.url [] = (Val report, log')
        /\ lookup_path ["headers_sample"] report = Some (VDict sample)
        /\ length sample <= 20).
Proof.
  assert (Hwf : wf Demo.unsorted_headers).
  { unfold wf. simpl. constructor; [|constructor; [|constructor]]; simpl.
    - intros [H|[]]. discriminate H.
    - tauto. }
  destruct (C5_headers_sample_bounded Demo.unsorted_headers Hwf) as [Hcli Hweb].
  split; [exact Hwf|]. split.
  - destruct (Hcli Demo.url "Demo" [] Demo.stamp)
      as [report [sample [H1 [H2 [H3 [H4 _]]]]]].
    exists report, sample. auto.
  - destruct (Hweb Demo.Float Demo.py_int Demo.py_float Demo.world_disabled
                Demo.http_unsorted Demo.stamp Demo.url "Demo" [] eq_refl)
      as [report [log' [sample [H1 [H2 [_ H4]]]]]].
    exists report, log', sample. auto.
Defined.

(** C5 as written fails for the web application: its sample keeps the
    order in which the server sent the headers. *)
Lemma C5_counterexample_web_sample_unsorted :
  exists report log' ks,
    Webapp._build_report Demo.py_int Demo.py_float Demo.world_disabled
      Demo.http_unsorted Demo.stamp Demo.url [] = (Val report, log')
    /\ field_keys ["headers_sample"] report = Some ks
    /\ ks = ["server"; "date"]
    /\ is_sorted ks = false.
Proof.
  eexists. eexists. eexists. split; [vm_compute; reflexivity|].
  split; [vm_compute; reflexivity|]. split; reflexivity.
Qed.

(** C6 (as amended).  For every findings sequence, the empty one
    included, the report of the command line ([main]) has a [summary]
    whose [severity_breakdown] holds, under "High", "Medium" and "Low",
    the number of findings of that severity, and whose [total_findings] is
    the length of the sequence.  The report of the web application
    ([_build_report]) has no [summary]. *)
Theorem C6_cli_severity_breakdown_exact :
  forall (url title : string) (headers : dict string) (findings : list Finding)
         (utcnow : string),
  exists report,
    Cli.assemble url title headers findings utcnow = Some report
    /\ lookup_path ["summary"; "total_findings"] report
       = Some (VInt (Z.of_nat (length findings)))
    /\ (forall sev, In sev ["High"; "Medium"; "Low"] ->
        lookup_path ["summary"; "severity_breakdown"; sev] report
        = Some (VInt (Z.of_nat
             (length (filter (fun f => value_eq_str (get f "severity") sev) findings)))))
    /\ field_keys ["summary"; "severity_breakdown"] report
       = Some ["High"; "Medium"; "Low"]
    /\ (findings = [] ->
        lookup_path ["summary"] report
        = Some (VDict [ ("total_findings", VInt 0);
                        ("severity_breakdown",
                         VDict [("High", VInt 0); ("Medium", VInt 0); ("Low", VInt 0)]) ])).
Proof.
  intros url title headers findings utcnow.
  destruct (cli_assemble_total url title headers findings utcnow) as [sample [_ E]].
  eexists. split; [exact E|]. split; [reflexivity|]. split; [|split].
  - intros sev [<-|[<-|[<-|[]]]]; reflexivity.
  - reflexivity.
  - intros ->. reflexivity.
Qed.

(** C6, instances: the findings of an empty header map, and no finding. *)
Lemma C6_cli_severity_breakdown_exact_witness :
  (exists report,
     Cli.assemble Demo.url "Demo" [] (Cli.run_rule_based_checks []) Demo.stamp
     = Some report
     /\ lookup_path ["summary"; "total_findings"] report = Some (VInt 2)
     /\ lookup_path ["summary"; "severity_breakdown"; "Medium"] report = Some (VInt 1))
  /\ (exists report,
        Cli.assemble Demo.url "Demo" [] [] Demo.stamp = Some report
        /\ lookup_path ["summary"; "total_findings"] report = Some (VInt 0)).
Proof.
  split.
  - destruct (C6_cli_severity_breakdown_exact Demo.url "Demo" []
                (Cli.run_rule_based_checks []) Demo.stamp)
      as [report [H1 [H2 [H3 _]]]].
    exists report. split; [exact H1|]. split; [exact H2|].
    exact (H3 "Medium" (or_intror (or_introl eq_refl))).
  - destruct (C6_cli_severity_breakdown_exact Demo.url "Demo" [] [] Demo.stamp)
      as [report [H1 [H2 _]]].
    exists report. split; [exact H1 | exact H2].
Defined.

(** C6 as written fails for the web application: its report has no
    [summary] at all. *)
Lemma C6_counterexample_web_report_without_summary :
  exists report log',
    Webapp._build_report Demo.py_int Demo.py_float Demo.world_disabled
      Demo.http_unsorted Demo.stamp Demo.url [] = (Val report, log')
    /\ lookup_path ["summary"] report = None
    /\ lookup_path ["summary"; "severity_breakdown"] report = None
    /\ lookup_path ["summary"; "total_findings"] report = None.
Proof.
  eexists. eexists. split; [vm_compute; reflexivity|].
  repeat split.
Qed.

(** C8 (as amended).  Every report of the web application
    ([_build_report]) has in its [meta] a [mode] string fixed by whether
    the capability is configured as enabled, whatever the capability then
    does: when it is enabled and the [try] block raises, the
    [executive_summary] is the fallback text and [mode] still reads
    enabled.  The report of the command line ([main]) has neither
    [executive_summary] nor [mode]. *)
Theorem C8_mode_reports_configuration :
  forall (Float : Type) (py_int : string -> option Z)
         (py_float : string -> option Float) (w : World Float)
         (http : Webapp.Http) (utc url title : string) (headers : dict string)
         (log : list (Request Float)),
    Webapp.fetch_page_title_and_headers http url = Some (title, headers) ->
    exists report log',
      Webapp._build_report py_int py_float w http utc url log = (Val report, log')
      /\ lookup_path ["meta"; "mode"] report
         = Some (VStr (if llm_enabled w then "AI-assisted (LLM enabled)"
                       else "Rule-based (LLM disabled)"))
      /\ (forall client' : option (Client Float),
            Webapp._llm_mode_string (mkWorld (environ w) client')
            = Webapp._llm_mode_string w)
      /\ (llm_enabled w = true ->
          fst (llm_content py_int py_float w url title
                 (Cli.run_rule_based_checks headers) log) = Exn ->
          lookup_path ["executive_summary"] report
          = Some (VStr (rule_based_executive_summary url title
                          (Cli.run_rule_based_checks headers)))
          /\ lookup_path ["meta"; "mode"] report
             = Some (VStr "AI-assisted (LLM enabled)")).
Proof.
  intros Float py_int py_float w http utc url title headers log Hf.
  destruct (build_report_runs Float py_int py_float w http utc url title headers log Hf)
    as [s [log' [Eg [_ E]]]].
  eexists. exists log'. split; [exact E|]. split; [reflexivity|]. split; [reflexivity|].
  intros He Hx. rewrite generate_unfold in Eg. cbv zeta in Eg. rewrite He in Eg.
  destruct (llm_content py_int py_float w url title
              (Cli.run_rule_based_checks headers) log) as [[c|] log1];
    [discriminate Hx|].
  injection Eg as <- <-. cbn [lookup_path Webapp.assemble get String.eqb].
  unfold Webapp._llm_mode_string. rewrite He. split; reflexivity.
Qed.

(** C8, an instance: the capability is enabled and every call raises. *)
Lemma C8_mode_reports_configuration_witness :
  exists report log',
    Webapp._build_report Demo.py_int Demo.py_float Demo.world_timeout
      Demo.http_mixed_case Demo.stamp Demo.url [] = (Val report, log')
    /\ lookup_path ["executive_summary"] report
       = Some (VStr (rule_based_executive_summary Demo.url "Demo"
                       (Cli.run_rule_based_checks Demo.mixed_case_headers)))
    /\ lookup_path ["meta"; "mode"] report = Some (VStr "AI-assisted (LLM enabled)").
Proof.
  destruct (C8_mode_reports_configuration Demo.Float Demo.py_int Demo.py_float
              Demo.world_timeout Demo.http_mixed_case Demo.stamp Demo.url "Demo"
              Demo.mixed_case_headers [] eq_refl)
    as [report [log' [E [_ [_ H]]]]].
  exists report, log'. split; [exact E|].
  apply H; vm_compute; reflexivity.
Defined.

(** C8 as written fails for the command line: its report has no [mode]
    and no [executive_summary]. *)
Lemma C8_counterexample_cli_report_without_mode :
  exists report,
    Cli.main_report Demo.browser Demo.stamp Demo.url = Some report
    /\ lookup_path ["meta"; "mode"] report = None
    /\ lookup_path ["executive_summary"] report = None
    /\ field_keys ["meta"] report = Some ["tool"; "version"; "scanned_at"].
Proof.
  eexists. split; [vm_compute; reflexivity|]. repeat split.
Qed.

(** ** The rule engine: claims *)

(** C3, at the failing input.  The web application hands the rule engine
    the header names as the server spelled them.  With a
    Content-Security-Policy header present under its usual mixed-case
    name, the rule engine still reports it missing, and the finding is in
    the report. *)
Theorem C3_mixed_case_csp_reported_missing :
  has_header "content-security-policy" Demo.mixed_case_headers = true
  /\ length (matching "Missing Content-Security-Policy header" "Medium"
               (Cli.run_rule_based_checks Demo.mixed_case_headers)) = 1
  /\ exists report log' findings,
       Webapp._build_report Demo.py_int Demo.py_float Demo.world_disabled
         Demo.http_mixed_case Demo.stamp Demo.url [] = (Val report, log')
       /\ lookup_path ["findings"] report = Some (VList findings)
       /\ In (VDict Cli.csp_finding) findings.
Proof.
  split; [reflexivity|]. split; [reflexivity|].
  eexists. eexists. eexists. split; [vm_compute; reflexivity|].
  split; [reflexivity|]. left. reflexivity.
Qed.

(** C4, at the failing input.  With a Server header present under its
    usual mixed-case name, no finding of the rule engine quotes its value:
    the output is the two findings of the absent headers. *)
Theorem C4_mixed_case_server_not_reported :
  has_header "server" [("Server", "nginx/1.18")] = true
  /\ existsb (fun f => evidence_includes "nginx/1.18" f)
       (Cli.run_rule_based_checks [("Server", "nginx/1.18")]) = false
  /\ Cli.run_rule_based_checks [("Server", "nginx/1.18")]
     = [Cli.csp_finding; Cli.xfo_finding].
Proof.
  repeat split.
Qed.

(** C9.  The rule engine is a function of the content of the header map:
    two header maps with the same value under every key, identical ones in
    particular, give the same findings in the same order.  Its findings
    come in the order of the rules (Content-Security-Policy, then
    X-Frame-Options, then Server), each rule at most once.  A header map
    that triggers no rule gives the empty list. *)
Theorem C9_rule_engine_deterministic_ordered :
  (forall h1 h2 : dict string,
      (forall k, get h1 k = get h2 k) ->
      Cli.run_rule_based_checks h1 = Cli.run_rule_based_checks h2)
  /\ (forall h : dict string,
        exists idx : list nat,
          map rule_index (Cli.run_rule_based_checks h) = map Some idx
          /\ StronglySorted lt idx
          /\ Forall (fun i => i < 3) idx)
  /\ (forall h : dict string,
        mem "content-security-policy" h = true ->
        mem "x-frame-options" h = true ->
        mem "server" h = false ->
        Cli.run_rule_based_checks h = []).
Proof.
  split; [|split].
  - intros h1 h2 H. unfold Cli.run_rule_based_checks, Cli.server_finding, mem.
    rewrite !H. reflexivity.
  - intros h. unfold Cli.run_rule_based_checks.
    destruct (mem "content-security-policy" h), (mem "x-frame-options" h),
             (mem "server" h); cbn [negb app].
    + exists [2]. repeat constructor.
    + exists []. repeat constructor.
    + exists [1; 2]. repeat constructor.
    + exists [1]. repeat constructor.
    + exists [0; 2]. repeat constructor.
    + exists [0]. repeat constructor.
    + exists [0; 1; 2]. repeat constructor.
    + exists [0; 1]. repeat constructor.
  - intros h H1 H2 H3. unfold Cli.run_rule_based_checks.
    rewrite H1, H2, H3. reflexivity.
Qed.

(** C9, instances: the same headers in two orders; a header map that
    triggers no rule. *)
Lemma C9_rule_engine_deterministic_ordered_witness :
  Cli.run_rule_based_checks [("server", "nginx"); ("x-frame-options", "DENY")]
  = Cli.run_rule_based_checks [("x-frame-options", "DENY"); ("server", "nginx")]
  /\ Cli.run_rule_based_checks
       [("content-security-policy", "default-src 'self'"); ("x-frame-options", "DENY")]
     = [].
Proof.
  destruct C9_rule_engine_deterministic_ordered as [Hdet [_ Hnone]].
  split.
  - apply Hdet. intros k. cbn [get].
    destruct ("server" =? k) eqn:E1; destruct ("x-frame-options" =? k) eqn:E2;
      try reflexivity.
    apply String.eqb_eq in E1. apply String.eqb_eq in E2. subst k. discriminate E2.
  - apply Hnone; reflexivity.
Defined.

(** C10.  For every header map the rule engine gives at most 3 findings,
    none of severity "High".  So the High count of the severity breakdown
    of every report of the pipeline is 0, and the fallback summary of the
    findings never takes the "elevated risk" posture. *)
Theorem C10_no_high_finding :
  forall headers : dict string,
    let findings := Cli.run_rule_based_checks headers in
    length findings <= 3
    /\ Forall (fun f => value_eq_str (get f "severity") "High" = false) findings
    /\ count_severity "High" findings = 0
    /\ (forall url title utcnow : string,
          exists report,
            Cli.assemble url title headers findings utcnow = Some report
            /\ lookup_path ["summary"; "severity_breakdown"; "High"] report
               = Some (VInt 0))
    /\ fst (posture_priority (count_severity "High" findings)
              (count_severity "Medium" findings)) <> "elevated risk".
Proof.
  intros headers findings.
  assert (H0 : count_severity "High" findings = 0).
  { subst findings. unfold Cli.run_rule_based_checks.
    destruct (mem "content-security-policy" headers), (mem "x-frame-options" headers),
             (mem "server" headers); reflexivity. }
  split; [|split; [|split; [exact H0|split]]].
  - subst findings. unfold Cli.run_rule_based_checks.
    destruct (mem "content-security-policy" headers), (mem "x-frame-options" headers),
             (mem "server" headers); cbn [negb app length]; lia.
  - subst findings. unfold Cli.run_rule_based_checks.
    destruct (mem "content-security-policy" headers), (mem "x-frame-options" headers),
             (mem "server" headers); cbn [negb app]; repeat constructor.
  - intros url title utcnow.
    destruct (cli_assemble_total url title headers findings utcnow) as [sample [_ E]].
    eexists. split; [exact E|].
    cbn [lookup_path get String.eqb Ascii.eqb Bool.eqb]. rewrite H0. reflexivity.
  - rewrite H0. unfold posture_priority.
    change (0 <? 0)%nat with false. cbv iota.
    destruct (0 <? count_severity "Medium" findings)%nat; cbn [fst]; intros E;
      discriminate E.
Qed.

(* ------------------------------------------------------------------ *)
(** * Further properties of the code *)

(** ** White space and [strip] *)

Lemma blank_lstrip (s : string) : blank (lstrip s) = blank s.
Proof.
  induction s as [|c r IH]; [reflexivity|].
  cbn [lstrip blank]. destruct (isspace c) eqn:E; [exact IH|].
  cbn [blank]. now rewrite E.
Qed.

Lemma rstrip_empty_iff (s : string) : rstrip s = "" <-> blank s = true.
Proof.
  induction s as [|c r IH]; [split; reflexivity|].
  cbn [rstrip blank]. destruct (rstrip r) as [|c' r'] eqn:E.
  - destruct (isspace c); cbn [andb].
    + split; [intros _; now apply IH | reflexivity].
    + split; discriminate.
  - split; [discriminate|]. intros H. apply andb_true_iff in H.
    destruct H as [_ H]. apply IH in H. discriminate H.
Qed.

Lemma strip_empty_iff (s : string) : strip s = "" <-> blank s = true.
Proof.
  unfold strip. rewrite rstrip_empty_iff, blank_lstrip. reflexivity.
Qed.

Lemma rstrip_idempotent (s : string) : rstrip (rstrip s) = rstrip s.
Proof.
  induction s as [|c r IH]; [reflexivity|].
  cbn [rstrip]. destruct (rstrip r) as [|c' r'] eqn:E.
  - destruct (isspace c) eqn:Ec; [reflexivity|]. cbn [rstrip]. now rewrite Ec.
  - cbn [rstrip]. cbn [rstrip] in IH. rewrite IH. reflexivity.
Qed.

(** The first character, if any, is no white space. *)
Lemma lstrip_fixpoint_iff (s : string) :
  lstrip s = s <-> match s with
                   | EmptyString => True
                   | String c _ => isspace c = false
                   end.
Proof.
  destruct s as [|c r]; [tauto|]. cbn [lstrip].
  destruct (isspace c) eqn:E; [|tauto].
  split; [|discriminate]. intros H. exfalso.
  assert (Hlen : String.length (lstrip r) <= String.length r).
  { clear. induction r as [|c r IH]; [apply le_n|].
    cbn [lstrip]. destruct (isspace c); cbn [String.length]; lia. }
  rewrite H in Hlen. cbn [String.length] in Hlen. lia.
Qed.

Lemma lstrip_idempotent (s : string) : lstrip (lstrip s) = lstrip s.
Proof.
  induction s as [|c r IH]; [reflexivity|].
  cbn [lstrip]. destruct (isspace c) eqn:E; [exact IH|].
  cbn [lstrip]. now rewrite E.
Qed.

Lemma lstrip_rstrip (s : string) : lstrip s = s -> lstrip (rstrip s) = rstrip s.
Proof.
  intros H. apply lstrip_fixpoint_iff in H. apply lstrip_fixpoint_iff.
  destruct s as [|c r]; [exact I|]. cbn [rstrip].
  destruct (rstrip r); [|exact H]. now rewrite H.
Qed.

(** What [strip] returns has white space at neither end. *)
Lemma strip_trimmed (s : string) : trimmed (strip s).
Proof.
  unfold trimmed, strip. split.
  - apply lstrip_rstrip, lstrip_idempotent.
  - apply rstrip_idempotent.
Qed.

(** ** [lower], [find] and slices *)



Lemma lower_char_lt (c : ascii) :
  Ascii.eqb (lower_char c) "<" = Ascii.eqb c "<".
Proof.
  destruct c as [[] [] [] [] [] [] [] []]; reflexivity.
Qed.

Lemma has_char_lower_lt (s : string) : has_char "<" (lower s) = has_char "<" s.
Proof.
  induction s as [|c s IH]; [reflexivity|].
  cbn [lower has_char]. now rewrite lower_char_lt, IH.
Qed.




Lemma find_from_absent (i : nat) (sub s : string) :
  contains sub s = false -> find_from i sub s = (-1)%Z.
Proof.
  revert i. induction s as [|c s IH]; intros i H; cbn [contains] in H;
    apply orb_false_iff in H; destruct H as [Hp H]; cbn [find_from]; rewrite Hp.
  - reflexivity.
  - now apply IH.
Qed.

Lemma find_from_lower_bound (i : nat) (sub s : string) :
  find_from i sub s = (-1)%Z \/ (Z.of_nat i <= find_from i sub s)%Z.
Proof.
  revert i. induction s as [|c s IH]; intros i; cbn [find_from];
    destruct (prefix sub _).
  - right. lia.
  - now left.
  - right. lia.
  - destruct (IH (S i)) as [H|H]; [now left | right; lia].
Qed.

Lemma find_from_present (i : nat) (sub s : string) :
  contains sub s = true -> (Z.of_nat i <= find_from i sub s)%Z.
Proof.
  revert i. induction s as [|c s IH]; intros i H; cbn [contains] in H;
    cbn [find_from]; destruct (prefix sub _) eqn:E; try lia; cbn [orb] in H;
    try discriminate H.
  specialize (IH (S i) H). lia.
Qed.




Lemma append_assoc_string (a b c : string) : (a ++ b) ++ c = a ++ b ++ c.
Proof.
  induction a as [|x a IH]; [reflexivity|]. cbn [append]. now rewrite IH.
Qed.




(** ** The title of the fetched page *)



(** X2.  A page without the opening tag [<title>], or without the closing
    tag [</title>], in any letter case, gets the title "Unknown"; so does
    a page whose first closing tag does not come after its first opening
    tag. *)
Theorem X2_parse_title_unknown :
  forall text : string,
    contains "<title>" (lower text) = false
    \/ contains "</title>" (lower text) = false
    \/ (find (lower text) "</title>" <= find (lower text) "<title>")%Z ->
    Webapp.parse_title text = "Unknown".
Proof.
  intros text H. unfold Webapp.parse_title.
  destruct H as [H|[H|H]].
  - unfold find at 1. rewrite (find_from_absent 0 _ _ H). reflexivity.
  - unfold find at 2. rewrite (find_from_absent 0 _ _ H).
    cbn [Z.eqb negb andb]. now rewrite andb_false_r.
  - apply Z.ltb_ge in H. rewrite H. now rewrite andb_false_r.
Qed.

(** X2, instances: an opening tag with an attribute is not seen; tags in
    the wrong order. *)
Lemma X2_parse_title_unknown_witness :
  Webapp.parse_title "<html><title lang=en>Shop</title></html>" = "Unknown"
  /\ Webapp.parse_title "</title>Shop<title>" = "Unknown".
Proof.
  split.
  - apply X2_parse_title_unknown. left. reflexivity.
  - apply X2_parse_title_unknown. right. right. vm_compute. discriminate.
Defined.

(** X3.  Whatever the page, the title found has white space at neither
    end. *)
Theorem X3_parse_title_trimmed :
  forall text : string, trimmed (Webapp.parse_title text).
Proof.
  intros text. unfold Webapp.parse_title.
  destruct (_ && _ && _)%bool; [apply strip_trimmed | split; reflexivity].
Qed.

(** ** The summariser, further *)

Lemma rstrip_app_keep (a b : string) :
  rstrip b <> "" -> rstrip (a ++ b) = a ++ rstrip b.
Proof.
  intros Hb. induction a as [|c a IH]; [reflexivity|].
  cbn [append rstrip]. rewrite IH.
  destruct (a ++ rstrip b) eqn:E; [|reflexivity].
  destruct a; [cbn [append] in E; contradiction | discriminate E].
Qed.

Lemma rstrip_app_nonempty (a b : string) :
  rstrip b <> "" -> rstrip (a ++ b) <> "".
Proof.
  intros Hb. rewrite rstrip_app_keep by exact Hb.
  destruct a; [exact Hb | discriminate].
Qed.

(** The prompt sent to the capability quotes the url, the title and the
    list of issues as they are. *)
Lemma prompt_quotes (url title issues : string) (high med low : nat) :
  let prompt := strip (user_prompt url title high med low issues) in
  contains url prompt = true
  /\ contains title prompt = true
  /\ contains issues prompt = true.
Proof.
  cbv zeta. unfold strip, user_prompt.
  change (lstrip (nl ++ ?x)) with (lstrip x).
  match goal with
  | |- context [lstrip ?x] =>
      replace (lstrip x) with x by (symmetry; apply lstrip_fixpoint_iff; reflexivity)
  end.
  repeat (rewrite rstrip_app_keep
            by (repeat (first [ solve [vm_compute; discriminate]
                              | apply rstrip_app_nonempty ]))).
  change (rstrip ("- No bullet points" ++ nl)) with "- No bullet points".
  repeat split.
  - do 4 apply contains_app_r. apply contains_prefix, prefix_app.
  - do 7 apply contains_app_r. apply contains_prefix, prefix_app.
  - do 22 apply contains_app_r. apply contains_prefix, prefix_app.
Qed.

Section SummarizerMore.

Variable Float : Type.
Variable py_int : string -> option Z.
Variable py_float : string -> option Float.

(** Without a client, with a title that is no string, or with a setting
    that [int] or [float] cannot read, the [try] block raises before any
    request is sent. *)
Lemma llm_content_misconfigured (w : World Float) (url title : string)
      (findings : list Finding) (log : list (Request Float)) :
  openai w = None
  \/ (top_titles findings <> [] /\ join_values ", " (top_titles findings) = None)
  \/ py_int (getenv w "WEBSENTRY_LLM_MAX_TOKENS" "140") = None
  \/ py_float (getenv w "WEBSENTRY_LLM_TEMPERATURE" "0.3") = None ->
  llm_content py_int py_float w url title findings log = (Exn, log).
Proof.
  intros H. unfold llm_content, bind, lift, ret, raise, create.
  destruct (openai w) as [client|]; [|reflexivity].
  destruct H as [H|[[Hne H]|[H|H]]]; [discriminate H| | |].
  - destruct (top_titles findings); [now elim Hne|]. now rewrite H.
  - destruct (top_titles findings); [|destruct (join_values _ _); [|reflexivity]];
      now rewrite H.
  - destruct (top_titles findings); [|destruct (join_values _ _); [|reflexivity]];
      (destruct (py_int _); [|reflexivity]); now rewrite H.
Qed.

(** With a client and readable settings, the [try] block sends one
    request for the findings of the rule engine and hands back the
    content of the first choice of the answer. *)
Lemma llm_content_rule_findings (w : World Float) (client : Client Float)
      (url title : string) (headers : dict string) (log : list (Request Float))
      (max_tokens : Z) (temperature : Float) :
  openai w = Some client ->
  py_int (getenv w "WEBSENTRY_LLM_MAX_TOKENS" "140") = Some max_tokens ->
  py_float (getenv w "WEBSENTRY_LLM_TEMPERATURE" "0.3") = Some temperature ->
  exists prompt,
    let req := mkRequest (getenv w "WEBSENTRY_LLM_MODEL" "gpt-4o-mini")
                 [ ("system", "You write concise executive security summaries.");
                   ("user", prompt) ] max_tokens temperature in
    llm_content py_int py_float w url title (Cli.run_rule_based_checks headers) log
    = (match client req with
       | Some resp => match nth_error resp 0 with Some c => Val c | None => Exn end
       | None => Exn
       end, (log ++ [req])%list)
    /\ contains url prompt = true /\ contains title prompt = true
    /\ trimmed prompt.
Proof.
  intros Ho Hi Hf.
  assert (Hj : exists issues,
    match top_titles (Cli.run_rule_based_checks headers) with
    | [] => Some "No issues detected"
    | _ :: _ => join_values ", " (top_titles (Cli.run_rule_based_checks headers))
    end = Some issues).
  { unfold Cli.run_rule_based_checks.
    destruct (mem "content-security-policy" headers), (mem "x-frame-options" headers),
             (mem "server" headers); eexists; reflexivity. }
  destruct Hj as [issues Hj].
  exists (strip (user_prompt url title
            (count_severity "High" (Cli.run_rule_based_checks headers))
            (count_severity "Medium" (Cli.run_rule_based_checks headers))
            (count_severity "Low" (Cli.run_rule_based_checks headers)) issues)).
  cbv zeta. split; [|split; [apply prompt_quotes|split; [apply prompt_quotes|apply strip_trimmed]]].
  unfold llm_content, bind, lift, create. rewrite Ho. unfold ret at 1.
  cbv beta iota.
  assert (Hissues :
    (match top_titles (Cli.run_rule_based_checks headers) with
     | [] => ret "No issues detected"
     | _ :: _ =>
         match join_values ", " (top_titles (Cli.run_rule_based_checks headers)) with
         | Some a => ret a
         | None => raise
         end
     end) log = (Val issues, log) :> res string * list (Request Float)).
  { destruct (top_titles (Cli.run_rule_based_checks headers)).
    - injection Hj as <-. reflexivity.
    - rewrite Hj. reflexivity. }
  rewrite Hissues. rewrite Hi, Hf. unfold ret. cbv beta iota.
  destruct (client _) as [resp|]; [|reflexivity].
  destruct (nth_error resp 0); reflexivity.
Qed.

End SummarizerMore.

(** X4.  With the capability enabled and an answer at hand, the summary
    is the fallback exactly when the answer is [None], empty or all white
    space; otherwise it is the answer without the white space around it,
    which is then not empty and has white space at neither end. *)
Theorem X4_blank_answer_gives_fallback :
  forall (Float : Type) (py_int : string -> option Z)
         (py_float : string -> option Float)
         (w : World Float) (url title : string) (findings : list Finding)
         (log log' : list (Request Float)) (content : option string),
    llm_enabled w = true ->
    llm_content py_int py_float w url title findings log = (Val content, log') ->
    let answer := match content with Some s => s | None => "" end in
    let result := generate_executive_summary py_int py_float w url title findings log in
    (blank answer = true ->
     result = (Val (rule_based_executive_summary url title findings), log'))
    /\ (blank answer = false ->
        result = (Val (strip answer), log')
        /\ strip answer <> "" /\ trimmed (strip answer)).
Proof.
  intros Float py_int py_float w url title findings log log' content He E answer result.
  subst result. rewrite generate_unfold. cbv zeta. rewrite He, E.
  change (text_of content) with (strip answer). unfold truthy. split.
  - intros Hb. apply strip_empty_iff in Hb. rewrite Hb. reflexivity.
  - intros Hb.
    assert (Hne : strip answer <> "").
    { intros Hs. apply strip_empty_iff in Hs. congruence. }
    apply String.eqb_neq in Hne. rewrite Hne. cbn [negb].
    apply String.eqb_neq in Hne. split; [reflexivity|]. split; [exact Hne|].
    apply strip_trimmed.
Qed.

(** X4, instances: an answer of blanks and line feeds; an answer wrapped
    in blanks. *)
Lemma X4_blank_answer_gives_fallback_witness :
  fst (generate_executive_summary Demo.py_int Demo.py_float
         (Demo.world_answering (Some (" " ++ nl ++ " "))) Demo.url "Demo" [] [])
  = Val (rule_based_executive_summary Demo.url "Demo" [])
  /\ fst (generate_executive_summary Demo.py_int Demo.py_float
            (Demo.world_answering (Some " Low risk. ")) Demo.url "Demo" [] [])
     = Val "Low risk.".
Proof.
  split.
  - destruct (llm_content Demo.py_int Demo.py_float
                (Demo.world_answering (Some (" " ++ nl ++ " "))) Demo.url "Demo" [] [])
      as [outcome log'] eqn:E.
    assert (Ho : outcome = Val (Some (" " ++ nl ++ " ")))
      by (vm_compute in E; now inversion E).
    subst outcome.
    rewrite (proj1 (X4_blank_answer_gives_fallback Demo.Float Demo.py_int Demo.py_float
                      (Demo.world_answering (Some (" " ++ nl ++ " "))) Demo.url "Demo"
                      [] [] log' _ eq_refl E) eq_refl).
    reflexivity.
  - destruct (llm_content Demo.py_int Demo.py_float
                (Demo.world_answering (Some " Low risk. ")) Demo.url "Demo" [] [])
      as [outcome log'] eqn:E.
    assert (Ho : outcome = Val (Some " Low risk. "))
      by (vm_compute in E; now inversion E).
    subst outcome.
    rewrite (proj1 (proj2 (X4_blank_answer_gives_fallback Demo.Float Demo.py_int
                      Demo.py_float (Demo.world_answering (Some " Low risk. "))
                      Demo.url "Demo" [] [] log' _ eq_refl E) eq_refl)).
    reflexivity.
Defined.

(** X5.  With the capability enabled but no usable client, a finding
    title that is no string, or a token or temperature setting that cannot
    be read, the summary is the fallback and no request is sent. *)
Theorem X5_misconfiguration_falls_back_without_request :
  forall (Float : Type) (py_int : string -> option Z)
         (py_float : string -> option Float)
         (w : World Float) (url title : string) (findings : list Finding)
         (log : list (Request Float)),
    llm_enabled w = true ->
    openai w = None
    \/ (top_titles findings <> [] /\ join_values ", " (top_titles findings) = None)
    \/ py_int (getenv w "WEBSENTRY_LLM_MAX_TOKENS" "140") = None
    \/ py_float (getenv w "WEBSENTRY_LLM_TEMPERATURE" "0.3") = None ->
    generate_executive_summary py_int py_float w url title findings log
    = (Val (rule_based_executive_summary url title findings), log).
Proof.
  intros Float py_int py_float w url title findings log He H.
  rewrite generate_unfold. cbv zeta. rewrite He.
  rewrite (llm_content_misconfigured Float py_int py_float w url title findings log H).
  reflexivity.
Qed.

(** X5, instances: a finding whose title is a number; a token setting
    that is no number. *)
Lemma X5_misconfiguration_falls_back_without_request_witness :
  generate_executive_summary Demo.py_int Demo.py_float (Demo.world_answering (Some "ok"))
    Demo.url "Demo" [[("title", VInt 7); ("severity", VStr "High")]] []
  = (Val (rule_based_executive_summary Demo.url "Demo"
            [[("title", VInt 7); ("severity", VStr "High")]]), [])
  /\ generate_executive_summary (fun _ => None) Demo.py_float
       (Demo.world_answering (Some "ok")) Demo.url "Demo" [] []
     = (Val (rule_based_executive_summary Demo.url "Demo" []), []).
Proof.
  split.
  - apply X5_misconfiguration_falls_back_without_request; [reflexivity|].
    right. left. split; [discriminate | reflexivity].
  - apply X5_misconfiguration_falls_back_without_request; [reflexivity|].
    right. right. left. reflexivity.
Defined.

(** X6.  With the capability enabled, a client and readable settings, a
    summary of the findings of the rule engine costs exactly one request:
    to the configured model, with a system message and a user message; the
    user message quotes the url and the title as they are and has white
    space at neither end.  The summary returned is not empty. *)
Theorem X6_one_request_for_rule_findings :
  forall (Float : Type) (py_int : string -> option Z)
         (py_float : string -> option Float)
         (w : World Float) (client : Client Float) (url title : string)
         (headers : dict string) (log : list (Request Float))
         (max_tokens : Z) (temperature : Float),
    llm_enabled w = true ->
    openai w = Some client ->
    py_int (getenv w "WEBSENTRY_LLM_MAX_TOKENS" "140") = Some max_tokens ->
    py_float (getenv w "WEBSENTRY_LLM_TEMPERATURE" "0.3") = Some temperature ->
    exists (prompt s : string),
      generate_executive_summary py_int py_float w url title
        (Cli.run_rule_based_checks headers) log
      = (Val s,
         (log ++ [mkRequest (getenv w "WEBSENTRY_LLM_MODEL" "gpt-4o-mini")
                    [ ("system", "You write concise executive security summaries.");
                      ("user", prompt) ] max_tokens temperature])%list)
      /\ s <> ""
      /\ contains url prompt = true /\ contains title prompt = true
      /\ trimmed prompt.
Proof.
  intros Float py_int py_float w client url title headers log max_tokens temperature
         He Ho Hi Hf.
  destruct (llm_content_rule_findings Float py_int py_float w client url title headers
              log max_tokens temperature Ho Hi Hf) as [prompt [E [Hu [Ht Htr]]]].
  cbv zeta in E. exists prompt.
  destruct (generate_total Float py_int py_float w url title
              (Cli.run_rule_based_checks headers) log) as [s [log' [Eg Hs]]].
  exists s. split; [|auto].
  rewrite Eg. rewrite generate_unfold in Eg. cbv zeta in Eg. rewrite He, E in Eg.
  destruct (match client _ with Some _ => _ | None => _ end);
    injection Eg as _ <-; reflexivity.
Qed.

(** X6, an instance: the findings of an empty header map, the default
    model and settings. *)
Lemma X6_one_request_for_rule_findings_witness :
  exists (prompt s : string),
    generate_executive_summary Demo.py_int Demo.py_float
      (Demo.world_answering (Some "ok")) Demo.url "Demo"
      (Cli.run_rule_based_checks []) []
    = (Val s,
       [mkRequest "gpt-4o-mini"
          [ ("system", "You write concise executive security summaries.");
            ("user", prompt) ] 140%Z (QArith_base.Qmake 3 10)])
    /\ contains Demo.url prompt = true.
Proof.
  destruct (X6_one_request_for_rule_findings Demo.Float Demo.py_int Demo.py_float
              (Demo.world_answering (Some "ok")) (fun _ => Some [Some "ok"])
              Demo.url "Demo" [] [] 140%Z (QArith_base.Qmake 3 10)
              eq_refl eq_refl eq_refl eq_refl) as [prompt [s [E [_ [Hu _]]]]].
  exists prompt, s. split; [exact E | exact Hu].
Defined.

(** ** The reports, further *)

(** The summariser sends at most one request. *)
Lemma generate_requests (Float : Type) (py_int : string -> option Z)
      (py_float : string -> option Float) (w : World Float) (url title : string)
      (findings : list Finding) :
  sends_at_most 1 (generate_executive_summary py_int py_float w url title findings).
Proof.
  intros log r log'. rewrite generate_unfold. cbv zeta.
  destruct (llm_enabled w).
  - destruct (llm_content py_int py_float w url title findings log) as [o log1] eqn:E.
    pose proof (llm_content_requests Float py_int py_float w url title findings _ _ _ E)
      as Hreq.
    destruct o; intros [= _ <-]; exact Hreq.
  - intros [= _ <-]. exists []. rewrite app_nil_r. split; [reflexivity | apply Nat.le_0_l].
Qed.

(** A failing fetch leaves [_build_report] as an exception, at once. *)
Lemma build_report_fetch_fails (Float : Type) (py_int : string -> option Z)
      (py_float : string -> option Float) (w : World Float) (http : Webapp.Http)
      (utc url : string) (log : list (Request Float)) :
  http url = None ->
  Webapp._build_report py_int py_float w http utc url log = (Exn, log).
Proof.
  intros Eh. unfold Webapp._build_report, Webapp.fetch_page_title_and_headers, bind.
  rewrite Eh. reflexivity.
Qed.

(** X7.  The web report fails exactly when the fetch fails, and then
    before anything is sent to the capability.  Otherwise it has the six
    fields url, title, executive_summary, headers_sample, findings and
    meta; the title is the parsed one, or "Unknown" when the page text
    cannot be read; the findings are those of the rule engine on the
    fetched headers; the summary is not empty; and at most one request
    went to the capability. *)
Theorem X7_web_report_fails_only_on_fetch :
  forall (Float : Type) (py_int : string -> option Z)
         (py_float : string -> option Float) (w : World Float)
         (http : Webapp.Http) (utc url : string) (log : list (Request Float)),
    match http url with
    | None => Webapp._build_report py_int py_float w http utc url log = (Exn, log)
    | Some r =>
        exists report log' summary reqs,
          Webapp._build_report py_int py_float w http utc url log = (Val report, log')
          /\ field_keys [] report
             = Some ["url"; "title"; "executive_summary"; "headers_sample";
                     "findings"; "meta"]
          /\ lookup_path ["url"] report = Some (VStr url)
          /\ lookup_path ["title"] report
             = Some (VStr (match Webapp.resp_text r with
                           | Some text => Webapp.parse_title text
                           | None => "Unknown"
                           end))
          /\ lookup_path ["findings"] report
             = Some (VList (map VDict (Cli.run_rule_based_checks (Webapp.resp_headers r))))
          /\ lookup_path ["executive_summary"] report = Some (VStr summary)
          /\ summary <> ""
          /\ log' = (log ++ reqs)%list /\ length reqs <= 1
    end.
Proof.
  intros Float py_int py_float w http utc url log.
  destruct (http url) as [r|] eqn:Eh.
  - assert (Hf : Webapp.fetch_page_title_and_headers http url
                 = Some (match Webapp.resp_text r with
                         | Some text => Webapp.parse_title text
                         | None => "Unknown"
                         end, Webapp.resp_headers r)).
    { unfold Webapp.fetch_page_title_and_headers. now rewrite Eh. }
    destruct (build_report_runs Float py_int py_float w http utc url _ _ log Hf)
      as [s [log' [Eg [Hs E]]]].
    destruct (generate_requests Float py_int py_float w url _ _ _ _ _ Eg)
      as [reqs [Hl Hn]].
    eexists. exists log', s, reqs. split; [exact E|].
    repeat (split; [reflexivity|]). split; [exact Hs|]. split; assumption.
  - apply build_report_fetch_fails. exact Eh.
Qed.

(** X8.  The report of the command line exists exactly when the
    navigation does not raise.  When the navigation yields no response
    object, the header map is empty: the report lists the two findings of
    the absent headers, in that order, and its header sample is empty. *)
Theorem X8_cli_report_and_missing_response :
  forall (goto : Cli.Browser) (utcnow url : string),
    (Cli.main_report goto utcnow url = None <-> goto url = None)
    /\ (forall title,
          goto url = Some (title, None) ->
          exists report,
            Cli.main_report goto utcnow url = Some report
            /\ lookup_path ["findings"] report
               = Some (VList [VDict Cli.csp_finding; VDict Cli.xfo_finding])
            /\ lookup_path ["headers_sample"] report = Some (VDict [])
            /\ lookup_path ["summary"; "total_findings"] report = Some (VInt 2)).
Proof.
  intros goto utcnow url. split.
  - unfold Cli.main_report, Cli.fetch_page_title_and_headers.
    destruct (goto url) as [[title response]|]; [|tauto].
    destruct (cli_assemble_total url title
                (match response with Some h => h | None => [] end)
                (Cli.run_rule_based_checks
                   (match response with Some h => h | None => [] end)) utcnow)
      as [sample [_ E]].
    rewrite E. split; discriminate.
  - intros title Hg. unfold Cli.main_report, Cli.fetch_page_title_and_headers.
    rewrite Hg. eexists. split; [reflexivity|]. repeat split.
Qed.

(** X8, an instance: a navigation without response object. *)
Lemma X8_cli_report_and_missing_response_witness :
  exists report,
    Cli.main_report (fun _ => Some ("Demo", None)) Demo.stamp Demo.url = Some report
    /\ lookup_path ["summary"; "total_findings"] report = Some (VInt 2).
Proof.
  destruct (proj2 (X8_cli_report_and_missing_response
                     (fun _ => Some ("Demo", None)) Demo.stamp Demo.url) "Demo" eq_refl)
    as [report [E [_ [_ H]]]].
  exists report. split; [exact E | exact H].
Defined.

(** ** The JSON endpoint *)

Section EndpointFacts.

Import WebappApi.

Variable Float : Type.
Variable py_int : string -> option Z.
Variable py_float : string -> option Float.

(** The key check passes exactly on authorised requests. *)
Lemma rejected_false_iff (w : World Float) (request : ApiRequest) :
  rejected w request = false <-> authorized w request.
Proof.
  unfold rejected, authorized.
  destruct (environ w "WEBSENTRY_API_KEY") as [key|]; [|tauto].
  destruct (String.eqb_spec key "") as [->|Hk].
  - cbn [truthy String.eqb negb andb]. split; [intros _; right; left; reflexivity | reflexivity].
  - unfold truthy. apply String.eqb_neq in Hk. rewrite Hk. cbn [negb andb].
    apply String.eqb_neq in Hk.
    destruct (x_api_key request) as [p|].
    + destruct (String.eqb_spec p key) as [->|Hp]; cbn [negb].
      * split; [intros _; right; right; exists key; split; reflexivity | reflexivity].
      * split; [discriminate|]. intros [H|[H|[k [H1 H2]]]]; try discriminate.
        -- injection H as ->. now elim Hk.
        -- injection H1 as ->. injection H2 as ->. now elim Hp.
    + destruct (String.eqb_spec "" key) as [<-|_]; [now elim Hk|]. cbn [negb].
      split; [discriminate|]. intros [H|[H|[k [H1 H2]]]]; try discriminate.
      injection H as ->. now elim Hk.
Qed.

(** What [scan_json] does once the key check has passed. *)
Lemma scan_json_authorized (w : World Float) (http : Webapp.Http) (utc : string)
      (request : ApiRequest) (log : list (Request Float)) :
  authorized w request ->
  scan_json py_int py_float w http utc request log =
  match json_body request with
  | None => (Exn, log)
  | Some data =>
      match url_or_empty data with
      | None => (Exn, log)
      | Some v =>
          match strip_value v with
          | None => (Exn, log)
          | Some url =>
              if truthy url then
                match Webapp._build_report py_int py_float w http utc url log with
                | (Val report, log') => (Val (mkJSONResponse 200 report), log')
                | (Exn, log') => (Exn, log')
                end
              else (Val (mkJSONResponse 400 (detail "Missing url")), log)
          end
      end
  end.
Proof.
  intros Ha. apply rejected_false_iff in Ha. unfold scan_json. rewrite Ha.
  unfold bind, lift, ret, raise.
  destruct (json_body request) as [data|]; [|reflexivity].
  destruct (url_or_empty data) as [v|]; [|reflexivity].
  destruct (strip_value v) as [url|]; [|reflexivity].
  destruct (truthy url); cbn [negb]; [|reflexivity].
  destruct (Webapp._build_report py_int py_float w http utc url log) as [[report|] log'];
    reflexivity.
Qed.

End EndpointFacts.

(** X9.  [scan_json] answers 401 exactly when a non-empty key is
    configured and the request carries no [X-API-Key] header or another
    value.  The 401 answer is given before the body is read: nothing is
    fetched and nothing is sent to the capability. *)
Theorem X9_scan_json_401_iff_wrong_key :
  forall (Float : Type) (py_int : string -> option Z)
         (py_float : string -> option Float) (w : World Float)
         (http : Webapp.Http) (utc : string) (request : WebappApi.ApiRequest)
         (log : list (Request Float)),
    (~ authorized w request ->
     WebappApi.scan_json py_int py_float w http utc request log
     = (Val (WebappApi.mkJSONResponse 401
               (WebappApi.detail "Invalid or missing API key")), log))
    /\ (forall response log',
          WebappApi.scan_json py_int py_float w http utc request log
          = (Val response, log') ->
          WebappApi.status_code response = 401 ->
          ~ authorized w request).
Proof.
  intros Float py_int py_float w http utc request log. split.
  - intros Hn. unfold WebappApi.scan_json.
    destruct (WebappApi.rejected w request) eqn:E; [reflexivity|].
    apply rejected_false_iff in E. contradiction.
  - intros response log' E Hs Ha.
    rewrite (scan_json_authorized Float py_int py_float w http utc request log Ha) in E.
    destruct (WebappApi.json_body request) as [data|]; [|discriminate E].
    destruct (WebappApi.url_or_empty data) as [v|]; [|discriminate E].
    destruct (WebappApi.strip_value v) as [url|]; [|discriminate E].
    destruct (truthy url).
    + destruct (Webapp._build_report py_int py_float w http utc url log)
        as [[report|] log1]; [|discriminate E].
      injection E as <- _. discriminate Hs.
    + injection E as <- _. discriminate Hs.
Qed.

(** X9, instances: a key is configured and the request carries none, or
    another one. *)
Lemma X9_scan_json_401_iff_wrong_key_witness :
  WebappApi.scan_json Demo.py_int Demo.py_float
    (mkWorld (fun name => if name =? "WEBSENTRY_API_KEY" then Some "s3cret" else None) None)
    Demo.http_mixed_case Demo.stamp
    (WebappApi.mkApiRequest None (Some (VDict [("url", VStr Demo.url)]))) []
  = (Val (WebappApi.mkJSONResponse 401
            (WebappApi.detail "Invalid or missing API key")), [])
  /\ WebappApi.scan_json Demo.py_int Demo.py_float
       (mkWorld (fun name => if name =? "WEBSENTRY_API_KEY" then Some "s3cret" else None)
          None)
       Demo.http_mixed_case Demo.stamp
       (WebappApi.mkApiRequest (Some "S3CRET") None) []
     = (Val (WebappApi.mkJSONResponse 401
               (WebappApi.detail "Invalid or missing API key")), []).
Proof.
  split.
  - apply X9_scan_json_401_iff_wrong_key.
    intros [H|[H|[k [H1 H2]]]]; discriminate.
  - apply X9_scan_json_401_iff_wrong_key.
    intros [H|[H|[k [H1 H2]]]]; try discriminate.
    injection H1 as <-. discriminate H2.
Defined.

(** X10.  An authorised request whose JSON object has no [url], a [url]
    that is [null], [false], [0], empty or all white space, gets the
    answer 400; nothing is fetched and nothing is sent to the
    capability. *)
Theorem X10_scan_json_400_on_missing_url :
  forall (Float : Type) (py_int : string -> option Z)
         (py_float : string -> option Float) (w : World Float)
         (http : Webapp.Http) (utc : string) (request : WebappApi.ApiRequest)
         (log : list (Request Float)) (d : dict value),
    authorized w request ->
    WebappApi.json_body request = Some (VDict d) ->
    get d "url" = None
    \/ (exists v, get d "url" = Some v /\ value_truthy v = false)
    \/ (exists s, get d "url" = Some (VStr s) /\ blank s = true) ->
    WebappApi.scan_json py_int py_float w http utc request log
    = (Val (WebappApi.mkJSONResponse 400 (WebappApi.detail "Missing url")), log).
Proof.
  intros Float py_int py_float w http utc request log d Ha Hb Hu.
  rewrite (scan_json_authorized Float py_int py_float w http utc request log Ha), Hb.
  unfold WebappApi.url_or_empty.
  destruct Hu as [->|[[v [-> Hv]]|[s [-> Hs]]]].
  - reflexivity.
  - rewrite Hv. reflexivity.
  - destruct (value_truthy (VStr s)); cbn [WebappApi.strip_value].
    + apply strip_empty_iff in Hs. rewrite Hs. reflexivity.
    + reflexivity.
Qed.

(** X10, instances: no key configured; a url of blanks, and no url. *)
Lemma X10_scan_json_400_on_missing_url_witness :
  WebappApi.scan_json Demo.py_int Demo.py_float Demo.world_disabled
    Demo.http_mixed_case Demo.stamp
    (WebappApi.mkApiRequest None (Some (VDict [("url", VStr "   ")]))) []
  = (Val (WebappApi.mkJSONResponse 400 (WebappApi.detail "Missing url")), [])
  /\ WebappApi.scan_json Demo.py_int Demo.py_float Demo.world_disabled
       Demo.http_mixed_case Demo.stamp
       (WebappApi.mkApiRequest (Some "anything") (Some (VDict []))) []
     = (Val (WebappApi.mkJSONResponse 400 (WebappApi.detail "Missing url")), []).
Proof.
  split.
  - apply (X10_scan_json_400_on_missing_url _ _ _ _ _ _ _ _ [("url", VStr "   ")]).
    + left. reflexivity.
    + reflexivity.
    + right. right. exists "   ". split; reflexivity.
  - apply (X10_scan_json_400_on_missing_url _ _ _ _ _ _ _ _ []).
    + left. reflexivity.
    + reflexivity.
    + left. reflexivity.
Defined.

(** X11.  An authorised request with a url that is a string with
    something else than white space is scanned under the url without the
    white space around it: when the fetch succeeds the answer is 200 with
    the report of [_build_report] for that url, when the fetch fails the
    exception leaves [scan_json]. *)
Theorem X11_scan_json_scans_stripped_url :
  forall (Float : Type) (py_int : string -> option Z)
         (py_float : string -> option Float) (w : World Float)
         (http : Webapp.Http) (utc : string) (request : WebappApi.ApiRequest)
         (log : list (Request Float)) (d : dict value) (s : string),
    authorized w request ->
    WebappApi.json_body request = Some (VDict d) ->
    get d "url" = Some (VStr s) ->
    blank s = false ->
    match http (strip s) with
    | None =>
        WebappApi.scan_json py_int py_float w http utc request log = (Exn, log)
    | Some _ =>
        exists report log',
          Webapp._build_report py_int py_float w http utc (strip s) log
          = (Val report, log')
          /\ WebappApi.scan_json py_int py_float w http utc request log
             = (Val (WebappApi.mkJSONResponse 200 report), log')
          /\ lookup_path ["url"] report = Some (VStr (strip s))
    end.
Proof.
  intros Float py_int py_float w http utc request log d s Ha Hb Hu Hs.
  rewrite (scan_json_authorized Float py_int py_float w http utc request log Ha), Hb.
  unfold WebappApi.url_or_empty. rewrite Hu.
  assert (Hne : strip s <> "").
  { intros E. apply strip_empty_iff in E. congruence. }
  assert (Ht : truthy (strip s) = true).
  { unfold truthy. apply negb_true_iff, String.eqb_neq. exact Hne. }
  assert (Hv : value_truthy (VStr s) = true).
  { cbn [value_truthy]. unfold truthy. apply negb_true_iff, String.eqb_neq.
    intros ->. apply Hne. reflexivity. }
  rewrite Hv. cbn [WebappApi.strip_value]. rewrite Ht.
  destruct (http (strip s)) as [r|] eqn:Eh.
  - assert (Hf : Webapp.fetch_page_title_and_headers http (strip s)
                 = Some (match Webapp.resp_text r with
                         | Some text => Webapp.parse_title text
                         | None => "Unknown"
                         end, Webapp.resp_headers r)).
    { unfold Webapp.fetch_page_title_and_headers. now rewrite Eh. }
    destruct (build_report_runs Float py_int py_float w http utc (strip s) _ _ log Hf)
      as [summary [log' [_ [_ E]]]].
    eexists. exists log'. rewrite E. repeat split.
  - rewrite (build_report_fetch_fails Float py_int py_float w http utc _ log Eh).
    reflexivity.
Qed.

(** X11, instances: a url wrapped in blanks is scanned without them; a
    fetch that fails. *)
Lemma X11_scan_json_scans_stripped_url_witness :
  (exists report log',
     WebappApi.scan_json Demo.py_int Demo.py_float Demo.world_disabled
       Demo.http_mixed_case Demo.stamp
       (WebappApi.mkApiRequest None
          (Some (VDict [("url", VStr "  https://example.com ")]))) []
     = (Val (WebappApi.mkJSONResponse 200 report), log')
     /\ lookup_path ["url"] report = Some (VStr "https://example.com"))
  /\ WebappApi.scan_json Demo.py_int Demo.py_float Demo.world_disabled
       (fun _ => None) Demo.stamp
       (WebappApi.mkApiRequest None (Some (VDict [("url", VStr "https://example.com")])))
       []
     = (Exn, []).
Proof.
  split.
  - destruct (X11_scan_json_scans_stripped_url Demo.Float Demo.py_int Demo.py_float
                Demo.world_disabled Demo.http_mixed_case Demo.stamp
                (WebappApi.mkApiRequest None
                   (Some (VDict [("url", VStr "  https://example.com ")]))) []
                [("url", VStr "  https://example.com ")] "  https://example.com "
                (or_introl eq_refl) eq_refl eq_refl eq_refl)
      as [report [log' [_ [E H]]]].
    exists report, log'. split; [exact E | exact H].
  - exact (X11_scan_json_scans_stripped_url Demo.Float Demo.py_int Demo.py_float
             Demo.world_disabled (fun _ => None) Demo.stamp
             (WebappApi.mkApiRequest None
                (Some (VDict [("url", VStr "https://example.com")]))) []
             [("url", VStr "https://example.com")] "https://example.com"
             (or_introl eq_refl) eq_refl eq_refl eq_refl).
Defined.

(** X12.  An authorised request whose body cannot be read as JSON, is no
    JSON object, or has a [url] that is neither a string nor a value
    counted as false (a number, a list, [true]) makes [scan_json] raise;
    nothing is fetched and nothing is sent to the capability. *)
Theorem X12_scan_json_raises_on_malformed_body :
  forall (Float : Type) (py_int : string -> option Z)
         (py_float : string -> option Float) (w : World Float)
         (http : Webapp.Http) (utc : string) (request : WebappApi.ApiRequest)
         (log : list (Request Float)),
    authorized w request ->
    WebappApi.json_body request = None
    \/ (exists data, WebappApi.json_body request = Some data
                     /\ forall d, data <> VDict d)
    \/ (exists d v, WebappApi.json_body request = Some (VDict d)
                    /\ get d "url" = Some v /\ value_truthy v = true
                    /\ forall s, v <> VStr s) ->
    WebappApi.scan_json py_int py_float w http utc request log = (Exn, log).
Proof.
  intros Float py_int py_float w http utc request log Ha H.
  rewrite (scan_json_authorized Float py_int py_float w http utc request log Ha).
  destruct H as [->|[[data [-> Hd]]|[d [v [-> [Hu [Hv Hs]]]]]]].
  - reflexivity.
  - destruct data; try reflexivity. now elim (Hd d).
  - unfold WebappApi.url_or_empty. rewrite Hu, Hv.
    destruct v; try reflexivity. now elim (Hs s).
Qed.

(** X12, instances: a body that is a JSON list; a url that is a number. *)
Lemma X12_scan_json_raises_on_malformed_body_witness :
  WebappApi.scan_json Demo.py_int Demo.py_float Demo.world_disabled
    Demo.http_mixed_case Demo.stamp
    (WebappApi.mkApiRequest None (Some (VList [VStr Demo.url]))) []
  = (Exn, [])
  /\ WebappApi.scan_json Demo.py_int Demo.py_float Demo.world_disabled
       Demo.http_mixed_case Demo.stamp
       (WebappApi.mkApiRequest None (Some (VDict [("url", VInt 8080)]))) []
     = (Exn, []).
Proof.
  split.
  - apply X12_scan_json_raises_on_malformed_body; [left; reflexivity|].
    right. left. eexists. split; [reflexivity | discriminate].
  - apply X12_scan_json_raises_on_malformed_body; [left; reflexivity|].
    right. right. exists [("url", VInt 8080)], (VInt 8080).
    repeat split. discriminate.
Defined.

(** ** The stand-alone client *)

(** X13.  [summarize_findings] raises when no API key is set, or an empty
    one, whatever the client would do, so before any client is made; and
    it returns a text only as the answer of a client made with the
    configured key, asked with the model "gpt-4.1-mini" and an input that
    ends with the findings text.  No failure of the client is caught. *)
Theorem X13_summarize_findings_needs_key :
  forall (environ : string -> option string) (findings_text : string),
    ((environ "OPENAI_API_KEY" = None \/ environ "OPENAI_API_KEY" = Some "") ->
     forall new_client,
       OpenaiClient.summarize_findings environ new_client findings_text = None)
    /\ (forall new_client out,
          OpenaiClient.summarize_findings environ new_client findings_text = Some out ->
          exists key client input_head,
            environ "OPENAI_API_KEY" = Some key /\ key <> ""
            /\ new_client key = Some client
            /\ client "gpt-4.1-mini" (input_head ++ findings_text) = Some out)
    /\ (forall new_client key,
          environ "OPENAI_API_KEY" = Some key -> key <> "" ->
          new_client key = None
          \/ (exists client, new_client key = Some client
                             /\ forall model input, client model input = None) ->
          OpenaiClient.summarize_findings environ new_client findings_text = None).
Proof.
  intros environ findings_text. unfold OpenaiClient.summarize_findings. split; [|split].
  - intros [->| ->] new_client; reflexivity.
  - intros new_client out H.
    destruct (environ "OPENAI_API_KEY") as [key|]; [|discriminate H].
    destruct (truthy key) eqn:Ek; [|discriminate H].
    destruct (new_client key) as [client|] eqn:Ec; [|discriminate H].
    exists key, client.
    exists ("You are a security reviewer. Summarize and prioritize the findings. "
            ++ "Group duplicates, assign severity (High/Medium/Low), and give 1-2 mitigations each."
            ++ nl ++ nl ++ "FINDINGS:" ++ nl).
    split; [reflexivity|]. split; [now apply truthy_nonempty|]. split; [exact Ec|].
    rewrite <- H. unfold OpenaiClient.review_input.
    rewrite !append_assoc_string. reflexivity.
  - intros new_client key -> Hk H.
    unfold truthy. apply String.eqb_neq in Hk. rewrite Hk. cbn [negb].
    destruct H as [->|[client [-> Hc]]]; [reflexivity | apply Hc].
Qed.

(** X13, instances: no key; a key and a client that raises. *)
Lemma X13_summarize_findings_needs_key_witness :
  OpenaiClient.summarize_findings (fun _ => None)
    (fun _ => Some (fun _ _ => Some "summary")) "finding 1" = None
  /\ OpenaiClient.summarize_findings Demo.env_enabled
       (fun _ => Some (fun _ _ => None)) "finding 1" = None.
Proof.
  split.
  - apply (proj1 (X13_summarize_findings_needs_key (fun _ => None) "finding 1")).
    left. reflexivity.
  - apply (proj2 (proj2 (X13_summarize_findings_needs_key Demo.env_enabled "finding 1"))
             _ "sk-test"); [reflexivity | discriminate |].
    right. eexists. split; reflexivity.
Defined.

(** ** Severity counts *)

Lemma count_severity_cons (sev : string) (f : Finding) (fs : list Finding) :
  count_severity sev (f :: fs)
  = (if value_eq_str (get f "severity") sev then 1 else 0) + count_severity sev fs.
Proof.
  unfold count_severity. cbn [filter].
  destruct (value_eq_str (get f "severity") sev); reflexivity.
Qed.

(** A finding counts for at most one of the three severities, and for one
    when its severity is known. *)
Lemma severity_exclusive (f : Finding) :
  (if value_eq_str (get f "severity") "High" then 1 else 0)
  + (if value_eq_str (get f "severity") "Medium" then 1 else 0)
  + (if value_eq_str (get f "severity") "Low" then 1 else 0)
  = if known_severity f then 1 else 0.
Proof.
  unfold known_severity, value_eq_str.
  destruct (get f "severity") as [[| | |s| |]|]; try reflexivity.
  destruct (String.eqb_spec s "High") as [->|_]; [reflexivity|].
  destruct (String.eqb_spec s "Medium") as [->|_]; [reflexivity|].
  destruct (s =? "Low"); reflexivity.
Qed.

(** X14.  The three counts of the severity breakdown never add up to more
    than the number of findings; they add up to it exactly when every
    finding has the severity "High", "Medium" or "Low", as every finding
    of the rule engine has.  A finding with another severity, or none, is
    in the total and in no count. *)
Theorem X14_severity_counts_partition :
  forall findings : list Finding,
    count_severity "High" findings + count_severity "Medium" findings
    + count_severity "Low" findings
    = length (filter known_severity findings)
    /\ length (filter known_severity findings) <= length findings
    /\ (forallb known_severity findings = true <->
        count_severity "High" findings + count_severity "Medium" findings
        + count_severity "Low" findings = length findings)
    /\ (forall headers : dict string,
          findings = Cli.run_rule_based_checks headers ->
          count_severity "High" findings + count_severity "Medium" findings
          + count_severity "Low" findings = length findings).
Proof.
  intros findings.
  assert (Hsum : count_severity "High" findings + count_severity "Medium" findings
                 + count_severity "Low" findings
                 = length (filter known_severity findings)).
  { induction findings as [|f fs IH]; [reflexivity|].
    rewrite !count_severity_cons. cbn [filter].
    pose proof (severity_exclusive f) as Hx.
    destruct (known_severity f); cbn [length]; lia. }
  assert (Hle : length (filter known_severity findings) <= length findings)
    by apply filter_length_le.
  assert (Hall : forallb known_severity findings = true <->
                 length (filter known_severity findings) = length findings).
  { clear. induction findings as [|f fs IH]; [split; reflexivity|].
    cbn [forallb filter]. pose proof (filter_length_le known_severity fs) as Hl.
    destruct (known_severity f); cbn [andb length].
    - rewrite IH. split; lia.
    - split; [discriminate | lia]. }
  split; [exact Hsum|]. split; [exact Hle|]. split.
  - rewrite Hsum. exact Hall.
  - intros headers ->. rewrite Hsum. apply Hall.
    unfold Cli.run_rule_based_checks.
    destruct (mem "content-security-policy" headers), (mem "x-frame-options" headers),
             (mem "server" headers); reflexivity.
Qed.

(** X14, instances: the findings of an empty header map; a finding with
    the severity "Critical". *)
Lemma X14_severity_counts_partition_witness :
  count_severity "High" (Cli.run_rule_based_checks [])
  + count_severity "Medium" (Cli.run_rule_based_checks [])
  + count_severity "Low" (Cli.run_rule_based_checks [])
  = length (Cli.run_rule_based_checks [])
  /\ count_severity "High" [[("severity", VStr "Critical")]]
     + count_severity "Medium" [[("severity", VStr "Critical")]]
     + count_severity "Low" [[("severity", VStr "Critical")]]
     = length (filter known_severity [[("severity", VStr "Critical")]]).
Proof.
  split.
  - apply (proj2 (proj2 (proj2
             (X14_severity_counts_partition (Cli.run_rule_based_checks []))))
             [] eq_refl).
  - apply (proj1 (X14_severity_counts_partition [[("severity", VStr "Critical")]])).
Defined.

(** X15.  The fallback text depends on the findings only through their
    number and the three severity counts: two lists that agree on these
    give the same text, whatever their titles, evidence and order. *)
Theorem X15_fallback_depends_on_counts_only :
  forall (url title : string) (fs1 fs2 : list Finding),
    length fs1 = length fs2 ->
    count_severity "High" fs1 = count_severity "High" fs2 ->
    count_severity "Medium" fs1 = count_severity "Medium" fs2 ->
    count_severity "Low" fs1 = count_severity "Low" fs2 ->
    rule_based_executive_summary url title fs1
    = rule_based_executive_summary url title fs2.
Proof.
  intros url title fs1 fs2 Hl Hh Hm Hlow.
  destruct fs1 as [|f1 fs1], fs2 as [|f2 fs2]; try discriminate Hl; [reflexivity|].
  rewrite !summary_layout. cbv zeta. rewrite Hl, Hh, Hm, Hlow. reflexivity.
Qed.

(** X15, an instance: the two findings of the rule engine in either
    order. *)
Lemma X15_fallback_depends_on_counts_only_witness :
  rule_based_executive_summary Demo.url "Demo" [Cli.csp_finding; Cli.xfo_finding]
  = rule_based_executive_summary Demo.url "Demo" [Cli.xfo_finding; Cli.csp_finding].
Proof.
  apply X15_fallback_depends_on_counts_only; reflexivity.
Defined.

(** ** The rule engine, further *)

Lemma get_set_same {V} (d : dict V) (k : string) (v : V) : get (set d k v) k = Some v.
Proof.
  induction d as [|[k' v'] d IH]; cbn [set get].
  - now rewrite String.eqb_refl.
  - destruct (k' =? k) eqn:E; cbn [get]; rewrite E; [reflexivity | exact IH].
Qed.

Lemma get_set_other {V} (d : dict V) (k k' : string) (v : V) :
  k <> k' -> get (set d k v) k' = get d k'.
Proof.
  intros Hk. induction d as [|[k0 v0] d IH]; cbn [set get].
  - apply String.eqb_neq in Hk. now rewrite Hk.
  - destruct (String.eqb_spec k0 k) as [->|Hk0]; cbn [get].
    + apply String.eqb_neq in Hk. now rewrite Hk.
    + destruct (k0 =? k'); [reflexivity | exact IH].
Qed.

(** Every finding of the rule engine has the four fields, as strings. *)
Lemma rule_findings_well_shaped (headers : dict string) :
  Forall well_shaped (Cli.run_rule_based_checks headers).
Proof.
  unfold Cli.run_rule_based_checks.
  destruct (mem "content-security-policy" headers), (mem "x-frame-options" headers),
           (mem "server" headers); cbn [negb app];
    repeat constructor; unfold well_shaped; do 4 eexists; reflexivity.
Qed.

(** What the three rules report, in terms of the exact keys. *)
Lemma rules_exact (headers : dict string) :
  length (matching "Missing Content-Security-Policy header" "Medium"
            (Cli.run_rule_based_checks headers))
  = (if mem "content-security-policy" headers then 0 else 1)
  /\ length (matching "Missing X-Frame-Options header" "Low"
               (Cli.run_rule_based_checks headers))
     = (if mem "x-frame-options" headers then 0 else 1)
  /\ length (matching "Server version disclosure" "Low"
               (Cli.run_rule_based_checks headers))
     = (if mem "server" headers then 1 else 0).
Proof.
  unfold Cli.run_rule_based_checks.
  destruct (mem "content-security-policy" headers), (mem "x-frame-options" headers),
           (mem "server" headers); repeat split.
Qed.

(** X16.  On header maps whose keys are all in lower case, as the browser
    of the command line hands them over, each rule is right under
    case-insensitive comparison: the Content-Security-Policy finding and
    the X-Frame-Options finding are there once when the header is absent
    and not at all when it is present, and the Server finding is there
    once, quoting the value, when the header is present and not at all
    when it is absent. *)
Theorem X16_rules_right_on_lowercase_keys :
  forall headers : dict string,
    lowercase_keys headers ->
    length (matching "Missing Content-Security-Policy header" "Medium"
              (Cli.run_rule_based_checks headers))
    = (if has_header "content-security-policy" headers then 0 else 1)
    /\ length (matching "Missing X-Frame-Options header" "Low"
                 (Cli.run_rule_based_checks headers))
       = (if has_header "x-frame-options" headers then 0 else 1)
    /\ length (matching "Server version disclosure" "Low"
                 (Cli.run_rule_based_checks headers))
       = (if has_header "server" headers then 1 else 0)
    /\ (has_header "server" headers = true ->
        exists v, get headers "server" = Some v
                  /\ In [ ("title", VStr "Server version disclosure");
                          ("severity", VStr "Low");
                          ("evidence", VStr ("Server header present: " ++ v));
                          ("mitigation", VStr "Disable or obfuscate server version headers") ]
                       (Cli.run_rule_based_checks headers)).
Proof.
  intros headers Hk. rewrite !(has_header_lowercase _ _ Hk).
  destruct (rules_exact headers) as [H1 [H2 H3]].
  split; [exact H1|]. split; [exact H2|]. split; [exact H3|].
  intros Hm. apply mem_true_iff in Hm. destruct (in_keys_get _ _ Hm) as [v Hv].
  exists v. split; [exact Hv|].
  unfold Cli.run_rule_based_checks, Cli.server_finding, mem. rewrite Hv.
  destruct (get headers "content-security-policy"), (get headers "x-frame-options");
    cbn [negb app Cli.format_opt In]; auto.
Qed.

(** X16, an instance: lower-case headers with a server header. *)
Lemma X16_rules_right_on_lowercase_keys_witness :
  length (matching "Server version disclosure" "Low"
            (Cli.run_rule_based_checks Demo.unsorted_headers)) = 1
  /\ length (matching "Missing Content-Security-Policy header" "Medium"
               (Cli.run_rule_based_checks Demo.unsorted_headers)) = 1.
Proof.
  assert (Hk : lowercase_keys Demo.unsorted_headers)
    by (repeat constructor).
  destruct (X16_rules_right_on_lowercase_keys Demo.unsorted_headers Hk)
    as [H1 [_ [H3 _]]].
  split; [exact H3 | exact H1].
Defined.

(** X17.  The rule engine looks at the presence of a key, never at the
    value of the two protective headers: a header map in which
    "content-security-policy" (or "x-frame-options") has any value at all,
    even the empty string, gets no finding for that header; and a "server"
    key with any value, even the empty string, gets the Server finding. *)
Theorem X17_rules_test_presence_only :
  forall (headers : dict string) (v : string),
    matching "Missing Content-Security-Policy header" "Medium"
      (Cli.run_rule_based_checks (set headers "content-security-policy" v)) = []
    /\ matching "Missing X-Frame-Options header" "Low"
         (Cli.run_rule_based_checks (set headers "x-frame-options" v)) = []
    /\ length (matching "Server version disclosure" "Low"
                 (Cli.run_rule_based_checks (set headers "server" v))) = 1.
Proof.
  intros headers v.
  assert (Hm : forall k, mem k (set headers k v) = true)
    by (intros k; unfold mem; now rewrite get_set_same).
  split; [|split].
  - apply length_zero_iff_nil.
    rewrite (proj1 (rules_exact _)), Hm. reflexivity.
  - apply length_zero_iff_nil.
    rewrite (proj1 (proj2 (rules_exact _))), Hm. reflexivity.
  - rewrite (proj2 (proj2 (rules_exact _))), Hm. reflexivity.
Qed.

(** ** The console summary *)

Section ConsoleFacts.

Variable py_str : value -> string.
Hypothesis py_str_string : forall s, py_str (VStr s) = s.

Lemma finding_lines_well_shaped (findings : list Finding) :
  Forall well_shaped findings ->
  forall i, exists lines,
    Console.finding_lines py_str i findings = Some lines
    /\ length lines = 4 * length findings.
Proof.
  induction 1 as [|f fs Hf _ IH]; intros i; cbn [Console.finding_lines].
  - exists []. split; reflexivity.
  - destruct Hf as [t [s [e [m ->]]]]. cbn [get String.eqb Ascii.eqb Bool.eqb].
    destruct (IH (S i)) as [ls [-> Hl]].
    eexists. split; [reflexivity|]. cbn [length]. lia.
Qed.

Lemma finding_lines_key_error (findings : list Finding) :
  Exists (fun f => get f "title" = None \/ get f "severity" = None
                   \/ get f "evidence" = None \/ get f "mitigation" = None) findings ->
  forall i, Console.finding_lines py_str i findings = None.
Proof.
  induction 1 as [f fs Hf|f fs _ IH]; intros i; cbn [Console.finding_lines].
  - destruct Hf as [Hf|[Hf|[Hf|Hf]]]; rewrite Hf;
      repeat (match goal with |- context [match ?x with _ => _ end] => destruct x end);
      reflexivity.
  - rewrite IH.
    repeat (match goal with |- context [match ?x with _ => _ end] => destruct x end);
      reflexivity.
Qed.

End ConsoleFacts.

(** X18.  The console summary at the end of [main] never raises on the
    findings of the rule engine: it prints the one line "No obvious issues
    detected." when there is none, and four lines for each finding
    otherwise.  On a list with a finding that lacks one of the four
    fields it raises [KeyError]. *)
Theorem X18_console_summary :
  forall py_str : value -> string,
    (forall s, py_str (VStr s) = s) ->
    (forall headers : dict string,
        exists lines,
          Console.console_summary py_str (Cli.run_rule_based_checks headers) = Some lines
          /\ length lines = Nat.max 1 (4 * length (Cli.run_rule_based_checks headers))
          /\ (Cli.run_rule_based_checks headers = [] <->
              lines = ["No obvious issues detected."]))
    /\ (forall findings : list Finding,
          Exists (fun f => get f "title" = None \/ get f "severity" = None
                           \/ get f "evidence" = None \/ get f "mitigation" = None)
            findings ->
          Console.console_summary py_str findings = None).
Proof.
  intros py_str Hs. split.
  - intros headers. unfold Console.console_summary.
    pose proof (rule_findings_well_shaped headers) as Hw.
    destruct (Cli.run_rule_based_checks headers) as [|f fs] eqn:E.
    + eexists. split; [reflexivity|]. split; [reflexivity | tauto].
    + destruct (finding_lines_well_shaped py_str (f :: fs) Hw 1) as [lines [El Hl]].
      exists lines. split; [exact El|]. split.
      * rewrite Hl. cbn [length]. lia.
      * split; [discriminate|]. intros ->. cbn [length] in Hl. lia.
  - intros findings H. unfold Console.console_summary.
    destruct findings as [|f fs]; [inversion H|].
    apply finding_lines_key_error. exact H.
Qed.

(** X18, instances: the lines for an empty header map, and a finding
    without evidence. *)
Lemma X18_console_summary_witness :
  (exists lines,
     Console.console_summary
       (fun v => match v with VStr s => s | _ => "" end)
       (Cli.run_rule_based_checks []) = Some lines
     /\ length lines = 8)
  /\ Console.console_summary
       (fun v => match v with VStr s => s | _ => "" end)
       [[("title", VStr "t"); ("severity", VStr "Low"); ("mitigation", VStr "m")]]
     = None.
Proof.
  destruct (X18_console_summary (fun v => match v with VStr s => s | _ => "" end)
              (fun s => eq_refl)) as [H1 H2].
  split.
  - destruct (H1 []) as [lines [E [Hl _]]]. exists lines. split; [exact E | exact Hl].
  - apply H2. constructor. right. right. left. reflexivity.
Defined.

(** ** The time stamp *)

(** X19.  [_utc_iso] turns the offset "+00:00" at the end of a time
    stamp without any other [+] into "Z", and leaves a time stamp without
    [+] as it is. *)
Theorem X19_utc_iso_suffix :
  forall d : string,
    has_char "+" d = false ->
    WebappApi._utc_iso (d ++ "+00:00") = d ++ "Z"
    /\ WebappApi._utc_iso d = d.
Proof.
  intros d Hd. unfold WebappApi._utc_iso, WebappApi.replace. split.
  - induction d as [|c d IH]; [reflexivity|].
    cbn [has_char] in Hd. apply orb_false_iff in Hd. destruct Hd as [Hc Hd].
    cbn [append WebappApi.replace_from prefix].
    destruct (ascii_dec "+" c) as [<-|_]; [discriminate Hc|].
    now rewrite IH.
  - induction d as [|c d IH]; [reflexivity|].
    cbn [has_char] in Hd. apply orb_false_iff in Hd. destruct Hd as [Hc Hd].
    cbn [WebappApi.replace_from prefix].
    destruct (ascii_dec "+" c) as [<-|_]; [discriminate Hc|].
    now rewrite IH.
Qed.

(** X19, an instance: a time stamp with microseconds. *)
Lemma X19_utc_iso_suffix_witness :
  WebappApi._utc_iso "2024-01-01T12:30:00.123456+00:00" = "2024-01-01T12:30:00.123456Z".
Proof.
  exact (proj1 (X19_utc_iso_suffix "2024-01-01T12:30:00.123456" eq_refl)).
Defined.

(** ** The header sample of the command line, further *)

Lemma ascii_compare_lt_trans (x y z : ascii) :
  Ascii.compare x y = Lt -> Ascii.compare y z = Lt -> Ascii.compare x z = Lt.
Proof.
  unfold Ascii.compare. rewrite !N.compare_lt_iff. apply N.lt_trans.
Qed.

Lemma string_leb_trans (a b c : string) :
  (a <=? b) = true -> (b <=? c) = true -> (a <=? c) = true.
Proof.
  unfold String.leb. revert b c.
  induction a as [|x a IH]; intros [|y b] [|z c]; cbn [String.compare];
    try reflexivity; try discriminate.
  destruct (Ascii.compare x y) eqn:Exy; try discriminate;
    destruct (Ascii.compare y z) eqn:Eyz; try discriminate; intros Hab Hbc.
  - apply Ascii.compare_eq_iff in Exy. apply Ascii.compare_eq_iff in Eyz. subst.
    replace (Ascii.compare z z) with Eq
      by (symmetry; unfold Ascii.compare; apply N.compare_refl).
    now apply (IH b c).
  - apply Ascii.compare_eq_iff in Exy. subst. now rewrite Eyz.
  - apply Ascii.compare_eq_iff in Eyz. subst. now rewrite Exy.
  - now rewrite (ascii_compare_lt_trans _ _ _ Exy Eyz).
Qed.

(** The head of a sorted list is below every other element. *)
Lemma is_sorted_head_le (a : string) (l : list string) :
  is_sorted (a :: l) = true -> forall x, In x l -> (a <=? x) = true.
Proof.
  revert a. induction l as [|b l IH]; intros a H x Hin; [elim Hin|].
  apply is_sorted_cons in H. destruct H as [Hab H].
  destruct Hin as [<-|Hin]; [exact Hab|].
  apply (string_leb_trans a b x); [exact Hab | now apply IH].
Qed.

(** Two sorted lists with the same elements are the same list. *)
Lemma sorted_unique (l1 l2 : list string) :
  is_sorted l1 = true -> is_sorted l2 = true -> Permutation l1 l2 -> l1 = l2.
Proof.
  revert l2. induction l1 as [|a l1 IH]; intros l2 H1 H2 Hp.
  - apply Permutation_nil in Hp. now subst.
  - destruct l2 as [|b l2]; [apply Permutation_sym, Permutation_nil in Hp; discriminate|].
    assert (Hab : a = b).
    { assert (Hb : In b (a :: l1))
        by (apply (Permutation_in _ (Permutation_sym Hp)); now left).
      assert (Ha : In a (b :: l2)) by (apply (Permutation_in _ Hp); now left).
      destruct Hb as [Hb|Hb]; [exact Hb|].
      destruct Ha as [Ha|Ha]; [now symmetry|].
      apply String.leb_antisym.
      - now apply (is_sorted_head_le a l1).
      - now apply (is_sorted_head_le b l2). }
    subst b. f_equal. apply IH.
    + now apply is_sorted_cons in H1.
    + now apply is_sorted_cons in H2.
    + now apply Permutation_cons_inv in Hp.
Qed.

Lemma get_none {V} (d : dict V) (k : string) : ~ In k (keys d) -> get d k = None.
Proof.
  intros H. destruct (get d k) eqn:E; [|reflexivity].
  elim H. eapply get_in_keys; eauto.
Qed.

Lemma get_of_in {V} (d : dict V) (k : string) (v : V) :
  NoDup (keys d) -> In (k, v) d -> get d k = Some v.
Proof.
  induction d as [|[k' v'] d IH]; intros Hn Hin; [elim Hin|].
  cbn [keys map fst] in Hn. inversion Hn as [|? ? Hk Hn']; subst.
  cbn [get]. destruct Hin as [[= -> ->]|Hin].
  - now rewrite String.eqb_refl.
  - destruct (String.eqb_spec k' k) as [->|_]; [|now apply IH].
    elim Hk. change (In k (keys d)). apply (in_map fst) in Hin. exact Hin.
Qed.

Lemma in_of_get {V} (d : dict V) (k : string) (v : V) :
  get d k = Some v -> In (k, v) d.
Proof.
  induction d as [|[k' v'] d IH]; cbn [get]; [discriminate|].
  destruct (String.eqb_spec k' k) as [->|_].
  - intros [= ->]. now left.
  - intros H. right. now apply IH.
Qed.

(** Two dicts with the same entries, in any order, have the same
    lookups. *)
Lemma get_permutation {V} (d1 d2 : dict V) :
  wf d1 -> Permutation d1 d2 -> forall k, get d1 k = get d2 k.
Proof.
  intros Hw Hp k.
  assert (Hw2 : wf d2)
    by (unfold wf, keys in *; apply (Permutation_NoDup (Permutation_map fst Hp) Hw)).
  destruct (get d1 k) as [v|] eqn:E1.
  - symmetry. apply get_of_in; [exact Hw2|].
    apply (Permutation_in _ Hp). now apply in_of_get.
  - destruct (get d2 k) as [v|] eqn:E2; [|reflexivity].
    apply in_of_get in E2. apply (Permutation_in _ (Permutation_sym Hp)) in E2.
    apply (get_of_in _ _ _ Hw) in E2. congruence.
Qed.

Lemma comprehension_ext (h1 h2 : dict string) (ks : list string) (acc : dict value) :
  (forall k, get h1 k = get h2 k) ->
  Cli.comprehension h1 ks acc = Cli.comprehension h2 ks acc.
Proof.
  intros H. revert acc. induction ks as [|k ks IH]; intros acc; [reflexivity|].
  cbn [Cli.comprehension]. rewrite <- H. destruct (get h1 k); [apply IH | reflexivity].
Qed.

(** The keys of the sample of the command line. *)
Lemma cli_sample_keys (headers : dict string) :
  wf headers ->
  exists sample,
    Cli.headers_sample headers = Some sample
    /\ keys sample = firstn 25 (sorted (keys headers))
    /\ NoDup (keys sample)
    /\ Forall (fun kv => option_map VStr (get headers (fst kv)) = Some (snd kv)) sample.
Proof.
  intros Hwf. unfold Cli.headers_sample.
  set (ks := firstn 25 (sorted (keys headers))).
  assert (Hnd : NoDup ks).
  { apply NoDup_firstn.
    apply (Permutation_NoDup (Permutation_sym (sorted_perm (keys headers)))). exact Hwf. }
  assert (Hin : forall k, In k ks -> In k (keys headers)).
  { intros k Hk. apply in_firstn in Hk.
    apply (Permutation_in _ (sorted_perm (keys headers))). exact Hk. }
  destruct (comprehension_fresh headers ks Hnd Hin [] (fun _ _ H => H))
    as [vs [E [Hkeys Hvals]]].
  exists vs. cbn [app] in E. rewrite Hkeys. auto.
Qed.

(** X20.  The header sample of the command line has exactly
    min(25, number of headers) entries; with at most 25 headers nothing is
    lost: the sample has every header, with its value. *)
Theorem X20_cli_sample_size_and_content :
  forall headers : dict string,
    wf headers ->
    exists sample,
      Cli.headers_sample headers = Some sample
      /\ length sample = Nat.min 25 (length headers)
      /\ (length headers <= 25 ->
          forall k, get sample k = option_map VStr (get headers k)).
Proof.
  intros headers Hwf.
  destruct (cli_sample_keys headers Hwf) as [sample [E [Hk [Hn Hv]]]].
  exists sample. split; [exact E|].
  assert (Hlen : length (sorted (keys headers)) = length headers).
  { rewrite (Permutation_length (sorted_perm (keys headers))). apply length_map. }
  split.
  - rewrite <- (length_map fst sample). change (map fst sample) with (keys sample).
    rewrite Hk, length_firstn, Hlen. reflexivity.
  - intros Hle k. rewrite firstn_all2 in Hk by lia.
    rewrite Forall_forall in Hv.
    destruct (get sample k) as [v|] eqn:Es.
    + apply in_of_get in Es. symmetry. exact (Hv _ Es).
    + destruct (get headers k) as [s|] eqn:Eh; [|reflexivity].
      exfalso. apply get_in_keys in Eh.
      apply (Permutation_in _ (Permutation_sym (sorted_perm (keys headers)))) in Eh.
      rewrite <- Hk in Eh. destruct (in_keys_get _ _ Eh) as [v Hv']. congruence.
Qed.

(** X20, an instance: two headers. *)
Lemma X20_cli_sample_size_and_content_witness :
  exists sample,
    Cli.headers_sample Demo.unsorted_headers = Some sample
    /\ length sample = 2
    /\ get sample "server" = Some (VStr "nginx/1.18").
Proof.
  assert (Hwf : wf Demo.unsorted_headers).
  { unfold wf. simpl. constructor; [|constructor; [|constructor]]; simpl.
    - intros [H|[]]. discriminate H.
    - tauto. }
  destruct (X20_cli_sample_size_and_content Demo.unsorted_headers Hwf)
    as [sample [E [Hl Hg]]].
  exists sample. split; [exact E|]. split; [exact Hl|].
  apply Hg. simpl. repeat constructor.
Defined.

(** X21.  The header sample of the command line does not depend on the
    order in which the headers arrived: two header maps with the same
    entries give the same sample, entry for entry. *)
Theorem X21_cli_sample_order_independent :
  forall h1 h2 : dict string,
    wf h1 -> Permutation h1 h2 ->
    Cli.headers_sample h1 = Cli.headers_sample h2.
Proof.
  intros h1 h2 Hw Hp. unfold Cli.headers_sample.
  assert (Hs : sorted (keys h1) = sorted (keys h2)).
  { apply sorted_unique; try apply sorted_is_sorted.
    rewrite (sorted_perm (keys h1)), (sorted_perm (keys h2)).
    unfold keys. now apply Permutation_map. }
  rewrite Hs. apply comprehension_ext. now apply get_permutation.
Qed.

(** X21, an instance: two headers in either order. *)
Lemma X21_cli_sample_order_independent_witness :
  Cli.headers_sample [("server", "nginx"); ("date", "today")]
  = Cli.headers_sample [("date", "today"); ("server", "nginx")].
Proof.
  apply X21_cli_sample_order_independent.
  - unfold wf. simpl. constructor; [|constructor; [|constructor]]; simpl.
    + intros [H|[]]. discriminate H.
    + tauto.
  - apply perm_swap.
Defined.

(** ** What the rule engine and the pipeline never do *)

(** X22.  A header other than the three the rules name never changes the
    findings: setting it, to any value, leaves the output of the rule
    engine as it was. *)
Theorem X22_other_headers_do_not_matter :
  forall (headers : dict string) (k v : string),
    k <> "content-security-policy" -> k <> "x-frame-options" -> k <> "server" ->
    Cli.run_rule_based_checks (set headers k v) = Cli.run_rule_based_checks headers.
Proof.
  intros headers k v H1 H2 H3.
  unfold Cli.run_rule_based_checks, Cli.server_finding, mem.
  rewrite !get_set_other by assumption. reflexivity.
Qed.

(** X22, an instance: a strict-transport-security header. *)
Lemma X22_other_headers_do_not_matter_witness :
  Cli.run_rule_based_checks
    (set Demo.unsorted_headers "strict-transport-security" "max-age=63072000")
  = Cli.run_rule_based_checks Demo.unsorted_headers.
Proof.
  apply X22_other_headers_do_not_matter; discriminate.
Defined.

Section PipelineRequests.

Variable Float : Type.
Variable py_int : string -> option Z.
Variable py_float : string -> option Float.

Lemma sends_weaken {A} (n m : nat) (c : M Float A) :
  n <= m -> sends_at_most n c -> sends_at_most m c.
Proof.
  intros Hle H log r log' E. destruct (H _ _ _ E) as [reqs [-> Hl]].
  exists reqs. split; [reflexivity | lia].
Qed.

(** With the capability disabled the summariser sends nothing. *)
Lemma generate_disabled_requests (w : World Float) (url title : string)
      (findings : list Finding) :
  llm_enabled w = false ->
  sends_at_most 0 (generate_executive_summary py_int py_float w url title findings).
Proof.
  intros He log r log'. rewrite generate_unfold. cbv zeta. rewrite He.
  intros [= _ <-]. exists []. now rewrite app_nil_r.
Qed.

(** [_build_report] sends what its summariser sends. *)
Lemma build_report_requests (n : nat) (w : World Float) (http : Webapp.Http)
      (utc url : string) :
  (forall title findings,
      sends_at_most n (generate_executive_summary py_int py_float w url title findings)) ->
  sends_at_most n (Webapp._build_report py_int py_float w http utc url).
Proof.
  intros Hg. unfold Webapp._build_report.
  apply (sends_bind Float 0 n); [apply sends_lift | | apply le_n].
  intros [title headers].
  apply (sends_bind Float n 0); [apply Hg | intros s; apply sends_ret | lia].
Qed.

(** [scan_json] sends what its [_build_report] sends. *)
Lemma scan_json_requests (n : nat) (w : World Float) (http : Webapp.Http)
      (utc : string) (request : WebappApi.ApiRequest) :
  (forall url, sends_at_most n (Webapp._build_report py_int py_float w http utc url)) ->
  sends_at_most n (WebappApi.scan_json py_int py_float w http utc request).
Proof.
  intros Hb. unfold WebappApi.scan_json.
  destruct (WebappApi.rejected w request).
  - apply (sends_weaken 0); [apply Nat.le_0_l | apply sends_ret].
  - apply (sends_bind Float 0 n); [apply sends_lift | | apply le_n]. intros data.
    apply (sends_bind Float 0 n); [apply sends_lift | | apply le_n]. intros v.
    apply (sends_bind Float 0 n); [apply sends_lift | | apply le_n]. intros url.
    destruct (negb (truthy url)).
    + apply (sends_weaken 0); [apply Nat.le_0_l | apply sends_ret].
    + apply (sends_bind Float n 0); [apply Hb | intros r; apply sends_ret | lia].
Qed.

End PipelineRequests.

(** X23.  One scan, by [_build_report] or through [scan_json], sends at
    most one request to the external capability, whatever the page, the
    request and the outcome; with the capability disabled it sends none,
    and the record of the calls is left as it was. *)
Theorem X23_one_scan_at_most_one_request :
  forall (Float : Type) (py_int : string -> option Z)
         (py_float : string -> option Float) (w : World Float)
         (http : Webapp.Http) (utc : string),
    (forall url,
        sends_at_most 1 (Webapp._build_report py_int py_float w http utc url))
    /\ (forall request,
          sends_at_most 1 (WebappApi.scan_json py_int py_float w http utc request))
    /\ (llm_enabled w = false ->
        (forall url log r log',
            Webapp._build_report py_int py_float w http utc url log = (r, log') ->
            log' = log)
        /\ (forall request log r log',
              WebappApi.scan_json py_int py_float w http utc request log = (r, log') ->
              log' = log)).
Proof.
  intros Float py_int py_float w http utc.
  assert (H1 : forall url,
             sends_at_most 1 (Webapp._build_report py_int py_float w http utc url)).
  { intros url. apply build_report_requests. intros title findings.
    apply generate_requests. }
  split; [exact H1|]. split.
  - intros request. apply scan_json_requests. exact H1.
  - intros He.
    assert (H0 : forall url,
               sends_at_most 0 (Webapp._build_report py_int py_float w http utc url)).
    { intros url. apply build_report_requests. intros title findings.
      apply generate_disabled_requests. exact He. }
    split.
    + intros url log r log' E. destruct (H0 url _ _ _ E) as [reqs [-> Hl]].
      destruct reqs; [apply app_nil_r | cbn [length] in Hl; lia].
    + intros request log r log' E.
      destruct (scan_json_requests Float py_int py_float 0 w http utc request H0 _ _ _ E)
        as [reqs [-> Hl]].
      destruct reqs; [apply app_nil_r | cbn [length] in Hl; lia].
Qed.

(** X23, an instance: a scan through the endpoint with the capability
    disabled. *)
Lemma X23_one_scan_at_most_one_request_witness :
  snd (WebappApi.scan_json Demo.py_int Demo.py_float Demo.world_disabled
         Demo.http_mixed_case Demo.stamp
         (WebappApi.mkApiRequest None (Some (VDict [("url", VStr Demo.url)]))) [])
  = [].
Proof.
  destruct (WebappApi.scan_json Demo.py_int Demo.py_float Demo.world_disabled
              Demo.http_mixed_case Demo.stamp
              (WebappApi.mkApiRequest None (Some (VDict [("url", VStr Demo.url)]))) [])
    as [r log'] eqn:E.
  exact (proj2 (proj2 (proj2 (X23_one_scan_at_most_one_request Demo.Float Demo.py_int
           Demo.py_float Demo.world_disabled Demo.http_mixed_case Demo.stamp)) eq_refl)
           _ _ _ _ E).
Defined.

(** X24.  The fallback text quotes the url and the page title as they
    are, whatever they contain and whatever the findings. *)
Theorem X24_fallback_quotes_url_and_title :
  forall (url title : string) (findings : list Finding),
    contains url (rule_based_executive_summary url title findings) = true
    /\ contains title (rule_based_executive_summary url title findings) = true.
Proof.
  intros url title findings. destruct findings as [|f fs].
  - unfold rule_based_executive_summary, no_issues_text. split.
    + apply contains_app_r, contains_prefix, prefix_app.
    + do 3 apply contains_app_r. apply contains_prefix, prefix_app.
  - rewrite summary_layout. cbv zeta. split.
    + apply contains_app_r, contains_prefix, prefix_app.
    + do 3 apply contains_app_r. apply contains_prefix, prefix_app.
Qed.
